(** * passport-lit-protocol: the Lit Protocol strategy of [src/lib/strategy.js]

    A shallow embedding of the [Strategy] constructor and of
    [Strategy.prototype.authenticate], and the properties of the
    specification that concern them.

    What is modelled, and how:
    - JavaScript values are the inductive type [value]; truthiness, [typeof],
      [||] and [!==] are the functions [truthy], [typeof], [js_or] and
      [strict_eq];
    - a run of JavaScript code is a trace of observable calls together with
      its completion (normal, or abrupt with a thrown value): the type [run],
      a writer/error monad with ExtLib's notation;
    - the calls the strategy makes on its environment are the events of the
      trace: [this.fail], [this.error] and [this.success] of the host
      framework, [LitJsSdk.verifyJwt], and the application's verify
      callback;
    - the environment is a parameter of the model: the helper [lookup] of
      [./utils], the collaborator [LitJsSdk.verifyJwt], and the behaviour of
      the application's functions. *)

From Stdlib Require Import String Ascii List ZArith Bool Arith Lia.
From ExtLib Require Import Structures.Monad Structures.MonadExc.
Import ListNotations.
Import MonadNotation.
Local Open Scope string_scope.
Local Open Scope monad_scope.

(** ** JavaScript values *)

(** Identity of an object.  An object of the environment (the request, its
    body, the result of the collaborator, ...) has an address; an object
    built by an object literal of [strategy.js] is identified by the line of
    that literal, each literal being evaluated at most once in a call. *)
Inductive ident : Type :=
| Addr (a : nat)
| Fresh (line : nat).

(** Numbers are restricted to the integers and [NaN]; an object carries its
    identity and its own properties; a function is known by its identity,
    its behaviour being given by the environment. *)
#[warnings="-register-all"]
Inductive value : Type :=
| VUndefined
| VNull
| VBool (b : bool)
| VNum (n : Z)
| VNaN
| VStr (s : string)
| VObj (id : ident) (props : list (string * value))
| VFun (f : nat).

Definition ident_eqb (i j : ident) : bool :=
  match i, j with
  | Addr a, Addr b => Nat.eqb a b
  | Fresh a, Fresh b => Nat.eqb a b
  | _, _ => false
  end.

(** [ToBoolean]: the falsy values are [undefined], [null], [false], [0],
    [NaN] and the empty string. *)
Definition truthy (v : value) : bool :=
  match v with
  | VUndefined | VNull | VNaN => false
  | VBool b => b
  | VNum n => negb (Z.eqb n 0)
  | VStr s => negb (String.eqb s "")
  | VObj _ _ | VFun _ => true
  end.

(** [a || b] on values. *)
Definition js_or (a b : value) : value := if truthy a then a else b.

(** [a === b]: no conversion; objects and functions compare by identity;
    [NaN] equals nothing. *)
Definition strict_eq (a b : value) : bool :=
  match a, b with
  | VUndefined, VUndefined => true
  | VNull, VNull => true
  | VBool x, VBool y => Bool.eqb x y
  | VNum x, VNum y => Z.eqb x y
  | VStr x, VStr y => String.eqb x y
  | VObj i _, VObj j _ => ident_eqb i j
  | VFun f, VFun g => Nat.eqb f g
  | _, _ => false
  end.

(** [a !== b]. *)
Definition strict_neq (a b : value) : bool := negb (strict_eq a b).

Definition typeof (v : value) : string :=
  match v with
  | VUndefined => "undefined"
  | VNull => "object"
  | VBool _ => "boolean"
  | VNum _ | VNaN => "number"
  | VStr _ => "string"
  | VObj _ _ => "object"
  | VFun _ => "function"
  end.

(** [undefined] and [null], the two values that have no properties. *)
Definition nullish (v : value) : bool :=
  match v with
  | VUndefined | VNull => true
  | _ => false
  end.

(** A value that is absent or the empty string. *)
Definition absent_or_empty (v : value) : bool :=
  match v with
  | VUndefined | VNull => true
  | VStr s => String.eqb s ""
  | _ => false
  end.

Fixpoint assoc (k : string) (ps : list (string * value)) : option value :=
  match ps with
  | [] => None
  | (k', v) :: ps' => if String.eqb k k' then Some v else assoc k ps'
  end.

(** The value of [v.k] where [v] has properties: an own property of an
    object, [undefined] otherwise.  Inherited properties are not modelled;
    of the names [strategy.js] reads, the only one a prototype of the
    language defines is [sub], on strings, and a string is never the payload
    of a request that passes the comparison of lines 98-102. *)
Definition prop (v : value) (k : string) : value :=
  match v with
  | VObj _ ps => match assoc k ps with Some x => x | None => VUndefined end
  | _ => VUndefined
  end.

(** ** Runs: traces and completions *)

(** What can be thrown, or handed to [this.error]. *)
Inductive thrown : Type :=
| TypeError (message : string)       (* [new TypeError(message)] *)
| NoProperties (v : value) (k : string)
                                     (* engine: [v.k] with [v] nullish *)
| NotCallable (v : value)            (* engine: [v(...)], [v] not a function *)
| Val (v : value).                   (* a value of the application *)

(** The observable calls.  [Verify f args] is the call of the function [f]
    as [this._verify], [args] being its arguments before the final
    [callback]; [Fail info None] is [this.fail(info)], without a status. *)
Inductive event : Type :=
| VerifyJwt (arg : value)
| Verify (f : nat) (args : list value)
| Fail (info : value) (status : option Z)
| Error (err : thrown)
| Success (user info : value).

Inductive completion (A : Type) : Type :=
| Normal (a : A)
| Throw (e : thrown).
Arguments Normal {A} a.
Arguments Throw {A} e.

Definition run (A : Type) : Type := (list event * completion A)%type.

#[global] Instance Monad_run : Monad run :=
  {| ret := fun _ a => ([], Normal a);
     bind := fun _ _ m k =>
       match snd m with
       | Normal a => ((fst m ++ fst (k a))%list, snd (k a))
       | Throw e => (fst m, Throw e)
       end |}.

#[global] Instance MonadExc_run : MonadExc thrown run :=
  {| raise := fun _ e => ([], Throw e);
     catch := fun _ m h =>
       match snd m with
       | Normal a => m
       | Throw e => ((fst m ++ fst (h e))%list, snd (h e))
       end |}.

Definition emit (e : event) : run value := ([e], Normal VUndefined).

(** [v.k] *)
Definition get (v : value) (k : string) : run value :=
  if nullish v then raise (NoProperties v k) else ret (prop v k).

(** [a || b], the second operand being evaluated only when needed. *)
Definition or_else (a b : run value) : run value :=
  x <- a ;; if truthy x then ret x else b.

(** [a || b] on conditions. *)
Definition orb_else (a b : run bool) : run bool :=
  x <- a ;; if x then ret true else b.

(** The [i]-th argument of a call, [undefined] when it was not passed. *)
Definition arg (i : nat) (args : list value) : value := nth i args VUndefined.

(** Calls in a trace. *)
Definition is_Verify (e : event) : bool :=
  match e with Verify _ _ => true | _ => false end.
Definition is_VerifyJwt (e : event) : bool :=
  match e with VerifyJwt _ => true | _ => false end.
Definition verify_calls (t : list event) : nat := length (filter is_Verify t).
Definition verifyJwt_calls (t : list event) : nat :=
  length (filter is_VerifyJwt t).

(** ** The strategy *)

(** What a function of the application does when it is called as the verify
    callback: it calls the [callback] it was given some number of times
    (each entry of [dones] is the arguments of one call), then it returns,
    or throws [throws].  Calls of [callback] made after it has returned are
    not part of the call of [authenticate]. *)
Record behaviour : Type := {
  dones : list (list value);
  throws : option value
}.

(** What [this.error] receives when the function throws. *)
Definition thrown_events (b : behaviour) : list event :=
  match throws b with
  | Some x => [Error (Val x)]
  | None => []
  end.

(** The fields of a [Strategy] instance. *)
Record strategy : Type := {
  _jwtField : value;
  _baseUrlField : value;
  _pathField : value;
  _extraDataField : value;
  name : string;
  _verify : value;
  _passReqToCallback : value
}.

(** [this.fail], [this.error] and [this.success] belong to the host
    framework: they are recorded, return [undefined] and do not throw. *)
Definition fail (info : value) (status : option Z) : run value :=
  emit (Fail info status).
Definition error (err : thrown) : run value := emit (Error err).
Definition success (user info : value) : run value :=
  emit (Success user info).

(** [function Strategy(options, verify)], lines 44-62; an argument that is
    not passed is [undefined].  [passport.Strategy.call(this)] has no
    effect. *)
Definition Strategy (options verify : value) : run strategy :=
  let '(options, verify) :=
    if String.eqb (typeof options) "function"
    then (VObj (Fresh 47) [], options)
    else (options, verify) in
  if negb (truthy verify)
  then raise (TypeError "LitProtocolStrategy requires a verify callback")
  else
    jwtField <- or_else (get options "jwtField") (ret (VStr "jwt")) ;;
    baseUrlField <-
      or_else (get options "baseUrlField") (ret (VStr "baseUrl")) ;;
    pathField <- or_else (get options "pathField") (ret (VStr "path")) ;;
    extraDataField <-
      or_else (get options "extraDataField") (ret (VStr "extraData")) ;;
    passReqToCallback <- get options "passReqToCallback" ;;
    ret {| _jwtField := jwtField;
           _baseUrlField := baseUrlField;
           _pathField := pathField;
           _extraDataField := extraDataField;
           name := "litProtocol";
           _verify := verify;
           _passReqToCallback := passReqToCallback |}.

(** [function callback(err, user, info)], lines 126-134. *)
Definition callback (err user info : value) : run value :=
  if truthy err then error (Val err)
  else if negb (truthy user) then fail info None
  else (success user info ;; ret VUndefined).

(** The calls of [callback] a function makes, in order. *)
Fixpoint run_dones (ds : list (list value)) : run value :=
  match ds with
  | [] => ret VUndefined
  | d :: ds' => callback (arg 0 d) (arg 1 d) (arg 2 d) ;; run_dones ds'
  end.

Section Model.

(** The environment of the strategy. *)

(** [lookup] of [./utils]: a pure function from a mapping and a field name
    to a value, or to an absent one.  Only the calls of [lookup] that
    return are modelled: a call that throws ends [authenticate] at lines
    77-86, before anything else is done, and the properties below speak of
    the values [lookup] returns. *)
Variable lookup : value -> value -> value.

(** [LitJsSdk.verifyJwt]: a result, unless it throws. *)
Variable verifyJwt : value -> completion value.

(** The behaviour of the function [f] called with the arguments [args] and
    the [callback]. *)
Variable app : nat -> list value -> behaviour.

Definition call_verifyJwt (a : value) : run value :=
  emit (VerifyJwt a) ;;
  match verifyJwt a with
  | Normal r => ret r
  | Throw e => raise e
  end.

(** [v(args..., callback)] *)
Definition call (v : value) (args : list value) : run value :=
  match v with
  | VFun f =>
      emit (Verify f args) ;;
      run_dones (dones (app f args)) ;;
      match throws (app f args) with
      | Some x => raise (Val x)
      | None => ret VUndefined
      end
  | _ => raise (NotCallable v)
  end.

(** [lookup(req.body, field) || lookup(req.query, field)], the expression
    of lines 77-86. *)
Definition extract (req field : value) : run value :=
  or_else (body <- get req "body" ;; ret (lookup body field))
          (query <- get req "query" ;; ret (lookup query field)).

(** Lines 136-144: the call of the verify callback. *)
Definition delegate (self : strategy) (req address : value) : run value :=
  catch
    ((if truthy (_passReqToCallback self)
      then call (_verify self) [req; address]
      else call (_verify self) [address]) ;;
     ret VUndefined)
    (fun ex => error ex).

(** [Strategy.prototype.authenticate = function (req, options)], lines
    75-145. *)
Definition authenticate (self : strategy) (req options : value) : run value :=
  let options := js_or options (VObj (Fresh 76) []) in
  jwt <- extract req (_jwtField self) ;;
  baseUrl <- extract req (_baseUrlField self) ;;
  path <- extract req (_pathField self) ;;
  extraData <- extract req (_extraDataField self) ;;
  if negb (truthy jwt) || negb (truthy baseUrl) || negb (truthy path)
     || negb (truthy extraData)
  then
    message <- or_else (get options "badRequestMessage")
                       (ret (VStr "Missing credentials")) ;;
    fail (VObj (Fresh 90) [("message", message)]) (Some 400%Z)
  else
    r <- call_verifyJwt (VObj (Fresh 95) [("jwt", jwt)]) ;;
    verified <- get r "verified" ;;
    payload <- get r "payload" ;;
    address <- get payload "sub" ;;
    mismatch <-
      orb_else
        (x <- get payload "baseUrl" ;; ret (strict_neq x baseUrl))
        (orb_else
           (x <- get payload "path" ;; ret (strict_neq x path))
           (x <- get payload "extraData" ;; ret (strict_neq x extraData))) ;;
    if (mismatch : bool)
    then
      message <-
        or_else (get options "badRequestMessage")
          (ret (VStr "Ooops. JWT payload does not match requested resource.")) ;;
      fail (VObj (Fresh 104) [("message", message)]) (Some 400%Z)
    else if negb (truthy verified)
    then
      message <-
        or_else (get options "badRequestMessage")
          (ret (VStr "Ooops. You don't have access to this resource.")) ;;
      fail (VObj (Fresh 115) [("message", message)]) (Some 400%Z)
    else delegate self req address.

(** *** The stages of [authenticate], as functions of the request *)

(** The value extracted for a field name. *)
Definition credential (req field : value) : value :=
  js_or (lookup (prop req "body") field) (lookup (prop req "query") field).

Definition jwt_of (self : strategy) (req : value) : value :=
  credential req (_jwtField self).
Definition baseUrl_of (self : strategy) (req : value) : value :=
  credential req (_baseUrlField self).
Definition path_of (self : strategy) (req : value) : value :=
  credential req (_pathField self).
Definition extraData_of (self : strategy) (req : value) : value :=
  credential req (_extraDataField self).

(** The presence check of line 88 passes. *)
Definition all_present (self : strategy) (req : value) : bool :=
  truthy (jwt_of self req) && truthy (baseUrl_of self req)
  && truthy (path_of self req) && truthy (extraData_of self req).

(** The argument [{ jwt }] of the collaborator, line 95. *)
Definition jwt_arg (self : strategy) (req : value) : value :=
  VObj (Fresh 95) [("jwt", jwt_of self req)].

(** The condition of lines 98-102 is false: the three claims of the payload
    are strictly equal to the extracted values. *)
Definition claims_match (payload : value) (self : strategy) (req : value)
  : bool :=
  strict_eq (prop payload "baseUrl") (baseUrl_of self req)
  && strict_eq (prop payload "path") (path_of self req)
  && strict_eq (prop payload "extraData") (extraData_of self req).

(** [options.badRequestMessage || default] *)
Definition message (options : value) (default : string) : value :=
  js_or (prop options "badRequestMessage") (VStr default).

(** The arguments of the verify callback, before [callback]. *)
Definition verify_args (self : strategy) (req address : value) : list value :=
  if truthy (_passReqToCallback self) then [req; address] else [address].

End Model.

(** The three default messages. *)
Definition missing_message : string := "Missing credentials".
Definition mismatch_message : string :=
  "Ooops. JWT payload does not match requested resource.".
Definition unauthorized_message : string :=
  "Ooops. You don't have access to this resource.".

(** The object [{ message: m }] built at [line]. *)
Definition info_at (line : nat) (m : value) : value :=
  VObj (Fresh line) [("message", m)].

(** ** Outcomes in a trace *)

(** The calls of [this.fail], [this.error] and [this.success]: what the
    host framework sees of a call of [authenticate]. *)
Definition is_outcome (e : event) : bool :=
  match e with
  | Fail _ _ | Error _ | Success _ _ => true
  | VerifyJwt _ | Verify _ _ => false
  end.

Definition outcomes (t : list event) : list event := filter is_outcome t.

(** The outcome of one call [callback(...d)] of the completion handler, [d]
    being the arguments of the call. *)
Definition outcome_of (d : list value) : event :=
  if truthy (arg 0 d) then Error (Val (arg 0 d))
  else if truthy (arg 1 d) then Success (arg 1 d) (arg 2 d)
  else Fail (arg 2 d) None.

(** ** A concrete environment *)

(** The pieces of [s] between the occurrences of [sep]. *)
Fixpoint segments (sep : ascii) (s : string) : list string :=
  match s with
  | EmptyString => [EmptyString]
  | String c s' =>
      if Ascii.eqb c sep then EmptyString :: segments sep s'
      else match segments sep s' with
           | [] => [String c EmptyString]
           | seg :: segs => String c seg :: segs
           end
  end.

(** Modelled from the spec: [lookup] of [./utils], whose source is not at
    hand.  The specification describes "a pure function
    lookup(mapping, key) -> value | absent" for which "a field name
    containing a separator should be resolved as a path through nested
    mappings".  The separator is left open, so it is a parameter here; the
    properties of the strategy below hold for any [lookup], and this one
    serves to run the strategy on concrete requests. *)
Definition lookup_path (sep : ascii) (mapping key : value) : value :=
  match key with
  | VStr k => fold_left prop (segments sep k) mapping
  | _ => VUndefined
  end.

Definition sample_lookup : value -> value -> value := lookup_path ".".

(** A request with the given body and query. *)
Definition request (body query : value) : value :=
  VObj (Addr 1) [("body", body); ("query", query)].

(** The body of the scenario of the specification, with the token [jwt]. *)
Definition sample_body (jwt : string) : value :=
  VObj (Addr 2)
    [("jwt", VStr jwt); ("baseUrl", VStr "https://x"); ("path", VStr "/r");
     ("extraData", VStr "d1")].

Definition sample_payload (path : string) : value :=
  VObj (Addr 4)
    [("sub", VStr "addr1"); ("baseUrl", VStr "https://x"); ("path", VStr path);
     ("extraData", VStr "d1")].

Definition sample_result (verified : bool) (payload : value) : value :=
  VObj (Addr 3) [("verified", VBool verified); ("payload", payload)].

(** A collaborator that knows five tokens: [t1] is verified and matches the
    body above, [t2] is verified for another path, [t3] matches but is not
    verified, [t4] neither matches nor is verified, [t5] is verified, matches
    and has no subject; it throws on anything else. *)
Definition sample_verifyJwt (a : value) : completion value :=
  match prop a "jwt" with
  | VStr t =>
      if String.eqb t "t1" then Normal (sample_result true (sample_payload "/r"))
      else if String.eqb t "t2"
      then Normal (sample_result true (sample_payload "/other"))
      else if String.eqb t "t3"
      then Normal (sample_result false (sample_payload "/r"))
      else if String.eqb t "t4"
      then Normal (sample_result false (sample_payload "/other"))
      else if String.eqb t "t5"
      then Normal (sample_result true
             (VObj (Addr 4)
                [("baseUrl", VStr "https://x"); ("path", VStr "/r");
                 ("extraData", VStr "d1")]))
      else Throw (Val (VStr "malformed token"))
  | _ => Throw (Val (VStr "malformed token"))
  end.

(** The user the application function [1] answers with. *)
Definition sample_user (address : value) : value :=
  VObj (Addr 5) [("address", address)].

(** Three functions of an application: [1] calls [callback(null, user)] and
    returns, [2] throws the string [boom], [3] calls
    [callback(oops, user)], any other returns without calling. *)
Definition sample_app (f : nat) (args : list value) : behaviour :=
  match f with
  | 1 => {| dones := [[VNull; sample_user (last args VUndefined)]];
            throws := None |}
  | 2 => {| dones := []; throws := Some (VStr "boom") |}
  | 3 => {| dones := [[VStr "oops"; sample_user (last args VUndefined)]];
            throws := None |}
  | _ => {| dones := []; throws := None |}
  end.

(** The strategy [new Strategy(f)] with the default field names. *)
Definition default_strategy (f : value) : strategy :=
  {| _jwtField := VStr "jwt";
     _baseUrlField := VStr "baseUrl";
     _pathField := VStr "path";
     _extraDataField := VStr "extraData";
     name := "litProtocol";
     _verify := f;
     _passReqToCallback := VUndefined |}.

(** ** Runs of the scenarios of the specification *)

(** Matching claims, verified, and the callback answers with a user. *)
Example scenario_success :
  authenticate sample_lookup sample_verifyJwt sample_app
    (default_strategy (VFun 1)) (request (sample_body "t1") VUndefined)
    VUndefined
  = ([VerifyJwt (VObj (Fresh 95) [("jwt", VStr "t1")]);
      Verify 1 [VStr "addr1"];
      Success (sample_user (VStr "addr1")) VUndefined],
     Normal VUndefined).
Proof. reflexivity. Qed.

(** The payload is for another path: the callback is not called. *)
Example scenario_mismatch :
  authenticate sample_lookup sample_verifyJwt sample_app
    (default_strategy (VFun 1)) (request (sample_body "t2") VUndefined)
    VUndefined
  = ([VerifyJwt (VObj (Fresh 95) [("jwt", VStr "t2")]);
      Fail (info_at 104 (VStr mismatch_message)) (Some 400%Z)],
     Normal VUndefined).
Proof. reflexivity. Qed.

(** The credentials are taken from the query when the body has none. *)
Example scenario_query :
  authenticate sample_lookup sample_verifyJwt sample_app
    (default_strategy (VFun 1)) (request VUndefined (sample_body "t1"))
    VUndefined
  = ([VerifyJwt (VObj (Fresh 95) [("jwt", VStr "t1")]);
      Verify 1 [VStr "addr1"];
      Success (sample_user (VStr "addr1")) VUndefined],
     Normal VUndefined).
Proof. reflexivity. Qed.

(** A nested field name. *)
Example scenario_nested :
  sample_lookup
    (VObj (Addr 2) [("auth", VObj (Addr 6) [("jwt", VStr "t1")])])
    (VStr "auth.jwt")
  = VStr "t1".
Proof. reflexivity. Qed.

(** ** Laws of runs *)

Section RunLaws.

Context {A B : Type}.

Lemma bind_ret (a : A) (k : A -> run B) : bind (ret a) k = k a.
Proof. cbn. destruct (k a); reflexivity. Qed.

Lemma bind_raise (e : thrown) (k : A -> run B) :
  bind (raise e : run A) k = raise e.
Proof. reflexivity. Qed.

Lemma bind_emit (e : event) (k : value -> run B) :
  bind (emit e) k = (e :: fst (k VUndefined), snd (k VUndefined)).
Proof. reflexivity. Qed.

Lemma bind_normal (t : list event) (a : A) (k : A -> run B) :
  bind ((t, Normal a) : run A) k = ((t ++ fst (k a))%list, snd (k a)).
Proof. reflexivity. Qed.

Lemma catch_normal (t : list event) (a : A) (h : thrown -> run A) :
  catch (t, Normal a) h = (t, Normal a).
Proof. reflexivity. Qed.

Lemma catch_throw (t : list event) (e : thrown) (h : thrown -> run A) :
  catch ((t, Throw e) : run A) h = ((t ++ fst (h e))%list, snd (h e)).
Proof. reflexivity. Qed.

End RunLaws.

Lemma get_object (v : value) (k : string) :
  nullish v = false -> get v k = ret (prop v k).
Proof. intros H. unfold get. rewrite H. reflexivity. Qed.

Lemma get_nullish (v : value) (k : string) :
  nullish v = true -> get v k = raise (NoProperties v k).
Proof. intros H. unfold get. rewrite H. reflexivity. Qed.

Lemma or_else_ret (x : value) (b : run value) :
  or_else (ret x) b = if truthy x then ret x else b.
Proof. unfold or_else. rewrite bind_ret. reflexivity. Qed.

Lemma truthy_not_nullish (v : value) : truthy v = true -> nullish v = false.
Proof. destruct v; simpl; congruence. Qed.

Lemma absent_or_empty_falsy (v : value) :
  absent_or_empty v = true -> truthy v = false.
Proof.
  destruct v; simpl; try congruence.
  intros ->. reflexivity.
Qed.


(** Reading a property of [options || {}] is reading it from [options]. *)
Lemma get_options (options : value) (k : string) :
  get (js_or options (VObj (Fresh 76) [])) k = ret (prop options k).
Proof.
  unfold js_or. destruct (truthy options) eqn:T.
  - apply get_object, truthy_not_nullish, T.
  - rewrite get_object by reflexivity.
    destruct options; simpl in T; try discriminate; reflexivity.
Qed.

(** The message of a failure: the override of the call, or the default. *)
Lemma message_run (options : value) (default : string) :
  or_else (get (js_or options (VObj (Fresh 76) [])) "badRequestMessage")
          (ret (VStr default))
  = ret (message options default).
Proof.
  rewrite get_options, or_else_ret. unfold message, js_or.
  destruct (truthy (prop options "badRequestMessage")); reflexivity.
Qed.

(** *** The completion handler *)

Lemma callback_normal (err user info : value) :
  snd (callback err user info) = Normal VUndefined.
Proof.
  unfold callback.
  destruct (truthy err); [reflexivity|].
  destruct (truthy user); reflexivity.
Qed.

Lemma callback_no_verify (err user info : value) :
  verify_calls (fst (callback err user info)) = 0.
Proof.
  unfold callback.
  destruct (truthy err); [reflexivity|].
  destruct (truthy user); reflexivity.
Qed.

Lemma verify_calls_app (t u : list event) :
  verify_calls (t ++ u) = verify_calls t + verify_calls u.
Proof. unfold verify_calls. rewrite filter_app, length_app. reflexivity. Qed.

Lemma run_dones_cons (d : list value) (ds : list (list value)) :
  run_dones (d :: ds)
  = ((fst (callback (arg 0 d) (arg 1 d) (arg 2 d)) ++ fst (run_dones ds))%list,
     snd (run_dones ds)).
Proof.
  change (run_dones (d :: ds))
    with (bind (callback (arg 0 d) (arg 1 d) (arg 2 d))
               (fun _ => run_dones ds)).
  unfold bind, Monad_run. rewrite callback_normal. reflexivity.
Qed.

Lemma run_dones_normal (ds : list (list value)) :
  snd (run_dones ds) = Normal VUndefined.
Proof.
  induction ds as [|d ds IH]; [reflexivity|].
  rewrite run_dones_cons. exact IH.
Qed.

Lemma run_dones_no_verify (ds : list (list value)) :
  verify_calls (fst (run_dones ds)) = 0.
Proof.
  induction ds as [|d ds IH]; [reflexivity|].
  rewrite run_dones_cons. cbn [fst].
  rewrite verify_calls_app, callback_no_verify, IH. reflexivity.
Qed.

(** ** The stages of [authenticate] *)

Section Stages.

Variable lookup : value -> value -> value.
Variable verifyJwt : value -> completion value.
Variable app : nat -> list value -> behaviour.

Local Abbreviation extract := (extract lookup).
Local Abbreviation credential := (credential lookup).
Local Abbreviation call := (call app).
Local Abbreviation delegate := (delegate app).
Local Abbreviation authenticate := (authenticate lookup verifyJwt app).
Local Abbreviation all_present := (all_present lookup).
Local Abbreviation jwt_arg := (jwt_arg lookup).
Local Abbreviation claims_match := (claims_match lookup).

(** *** Extraction *)

Lemma extract_body (req field : value) :
  nullish req = false ->
  truthy (lookup (prop req "body") field) = true ->
  extract req field = ret (lookup (prop req "body") field).
Proof.
  intros Hreq Hb. unfold extract.
  rewrite !get_object, !bind_ret by exact Hreq.
  rewrite or_else_ret, Hb. reflexivity.
Qed.

Lemma extract_query (req field : value) :
  nullish req = false ->
  truthy (lookup (prop req "body") field) = false ->
  extract req field = ret (lookup (prop req "query") field).
Proof.
  intros Hreq Hb. unfold extract.
  rewrite !get_object, !bind_ret by exact Hreq.
  rewrite or_else_ret, Hb. reflexivity.
Qed.

Lemma extract_object (req field : value) :
  nullish req = false -> extract req field = ret (credential req field).
Proof.
  intros Hreq. unfold credential, js_or.
  destruct (truthy (lookup (prop req "body") field)) eqn:Hb.
  - apply extract_body; assumption.
  - apply extract_query; assumption.
Qed.

(** A request that has no properties makes [authenticate] throw. *)
Lemma authenticate_no_request (self : strategy) (req options : value) :
  nullish req = true ->
  authenticate self req options = raise (NoProperties req "body").
Proof.
  intros Hreq. unfold authenticate, extract.
  rewrite !get_nullish by exact Hreq. reflexivity.
Qed.

(** *** The call of the collaborator *)

Lemma call_verifyJwt_normal (a r : value) :
  verifyJwt a = Normal r ->
  call_verifyJwt verifyJwt a = ([VerifyJwt a], Normal r).
Proof. intros H. unfold call_verifyJwt. rewrite H. reflexivity. Qed.

Lemma call_verifyJwt_throw (a : value) (e : thrown) :
  verifyJwt a = Throw e ->
  call_verifyJwt verifyJwt a = ([VerifyJwt a], Throw e).
Proof. intros H. unfold call_verifyJwt. rewrite H. reflexivity. Qed.

(** *** The call of the verify callback *)

Lemma call_function (f : nat) (args : list value) :
  call (VFun f) args
  = ((Verify f args :: fst (run_dones (dones (app f args))))%list,
     match throws (app f args) with
     | Some x => Throw (Val x)
     | None => Normal VUndefined
     end).
Proof.
  unfold call. rewrite bind_emit.
  unfold bind, Monad_run. rewrite run_dones_normal.
  destruct (throws (app f args)); cbn; rewrite app_nil_r; reflexivity.
Qed.

Lemma delegate_function (self : strategy) (req address : value) (f : nat) :
  _verify self = VFun f ->
  delegate self req address
  = ((Verify f (verify_args self req address)
      :: fst (run_dones (dones (app f (verify_args self req address))))
      ++ thrown_events (app f (verify_args self req address)))%list,
     Normal VUndefined).
Proof.
  intros Hf. unfold delegate, verify_args, thrown_events.
  rewrite Hf.
  destruct (truthy (_passReqToCallback self));
    rewrite call_function; unfold bind, Monad_run; cbn [fst snd];
    (destruct (throws (app f _)); cbn; rewrite ?app_nil_r; reflexivity).
Qed.

Lemma delegate_not_callable (self : strategy) (req address : value) :
  (forall f, _verify self <> VFun f) ->
  delegate self req address
  = ([Error (NotCallable (_verify self))], Normal VUndefined).
Proof.
  intros Hf. unfold delegate.
  destruct (_verify self) eqn:E;
    try (destruct (truthy (_passReqToCallback self)); reflexivity).
  exfalso. exact (Hf f eq_refl).
Qed.

(** Whatever [this._verify] is and does, nothing is thrown out of the
    [try] block. *)
Lemma delegate_normal (self : strategy) (req address : value) :
  snd (delegate self req address) = Normal VUndefined.
Proof.
  destruct (_verify self) eqn:E;
    try (rewrite delegate_not_callable; [reflexivity | congruence]).
  rewrite (delegate_function self req address f E). reflexivity.
Qed.

(** *** The checks *)

(** The credentials are incomplete: lines 88-93. *)
Lemma authenticate_incomplete (self : strategy) (req options : value) :
  nullish req = false ->
  all_present self req = false ->
  authenticate self req options
  = ([Fail (info_at 90 (message options missing_message)) (Some 400%Z)],
     Normal VUndefined).
Proof.
  intros Hreq Hp. unfold authenticate.
  rewrite !extract_object, !bind_ret by exact Hreq.
  unfold all_present, jwt_of, baseUrl_of, path_of, extraData_of in Hp.
  rewrite <- !negb_andb, Hp. cbn [negb].
  rewrite message_run, bind_ret. reflexivity.
Qed.

(** The credentials are complete and the collaborator answers [r], an
    object with a payload: lines 95-144. *)
Lemma authenticate_checked (self : strategy) (req options r : value) :
  nullish req = false ->
  all_present self req = true ->
  verifyJwt (jwt_arg self req) = Normal r ->
  nullish r = false ->
  nullish (prop r "payload") = false ->
  authenticate self req options
  = if negb (claims_match (prop r "payload") self req)
    then ([VerifyJwt (jwt_arg self req);
           Fail (info_at 104 (message options mismatch_message)) (Some 400%Z)],
          Normal VUndefined)
    else if negb (truthy (prop r "verified"))
    then ([VerifyJwt (jwt_arg self req);
           Fail (info_at 115 (message options unauthorized_message))
                (Some 400%Z)],
          Normal VUndefined)
    else (VerifyJwt (jwt_arg self req)
          :: fst (delegate self req (prop (prop r "payload") "sub")),
          Normal VUndefined).
Proof.
  intros Hreq Hp Hr Hr0 Hpl. unfold authenticate.
  rewrite !extract_object, !bind_ret by exact Hreq.
  unfold all_present, jwt_of, baseUrl_of, path_of, extraData_of in Hp.
  rewrite <- !negb_andb, Hp. cbn [negb].
  fold (jwt_of lookup self req).
  change (VObj (Fresh 95) [("jwt", jwt_of lookup self req)])
    with (jwt_arg self req).
  rewrite (call_verifyJwt_normal _ _ Hr), bind_normal.
  rewrite !(get_object r) by exact Hr0. rewrite !bind_ret.
  rewrite !(get_object (prop r "payload")) by exact Hpl.
  rewrite !message_run. unfold orb_else. rewrite !bind_ret.
  unfold claims_match, baseUrl_of, path_of, extraData_of, strict_neq.
  set (payload := prop r "payload").
  destruct (strict_eq (prop payload "baseUrl") _); cbn [negb andb];
    rewrite ?bind_ret; [|reflexivity].
  destruct (strict_eq (prop payload "path") _); cbn [negb andb];
    rewrite ?bind_ret; [|reflexivity].
  destruct (strict_eq (prop payload "extraData") _); cbn [negb andb];
    rewrite ?bind_ret; [|reflexivity].
  destruct (truthy (prop r "verified")); cbn [negb]; [|reflexivity].
  rewrite delegate_normal. reflexivity.
Qed.

End Stages.

(** ** The constructor *)

(** A function as first argument is the verify callback, whatever the second
    argument, and the options are the defaults. *)
Lemma Strategy_function_first (f : nat) (verify : value) :
  Strategy (VFun f) verify = ret (default_strategy (VFun f)).
Proof. reflexivity. Qed.

(** Without a function as first argument, a falsy [verify] is refused before
    the options are read. *)
Lemma Strategy_no_verify (options verify : value) :
  typeof options <> "function" ->
  truthy verify = false ->
  Strategy options verify
  = raise (TypeError "LitProtocolStrategy requires a verify callback").
Proof.
  intros Ht Hv. unfold Strategy.
  destruct (String.eqb_spec (typeof options) "function") as [E|_];
    [contradiction|].
  rewrite Hv. reflexivity.
Qed.

(** With options that have properties and a truthy [verify], the instance
    holds the configured names, or the defaults. *)
Lemma Strategy_options (options verify : value) :
  typeof options <> "function" ->
  nullish options = false ->
  truthy verify = true ->
  Strategy options verify
  = ret {| _jwtField := js_or (prop options "jwtField") (VStr "jwt");
           _baseUrlField := js_or (prop options "baseUrlField") (VStr "baseUrl");
           _pathField := js_or (prop options "pathField") (VStr "path");
           _extraDataField :=
             js_or (prop options "extraDataField") (VStr "extraData");
           name := "litProtocol";
           _verify := verify;
           _passReqToCallback := prop options "passReqToCallback" |}.
Proof.
  intros Ht Ho Hv. unfold Strategy.
  destruct (String.eqb_spec (typeof options) "function") as [E|_];
    [contradiction|].
  rewrite Hv. cbn [negb].
  rewrite !get_object by exact Ho. rewrite !or_else_ret.
  unfold js_or.
  destruct (truthy (prop options "jwtField"));
    destruct (truthy (prop options "baseUrlField"));
    destruct (truthy (prop options "pathField"));
    destruct (truthy (prop options "extraDataField")); reflexivity.
Qed.

(** Options without properties, [undefined] or [null], make the constructor
    throw on the first read, even with a verify callback. *)
Lemma Strategy_no_options (options verify : value) :
  nullish options = true ->
  truthy verify = true ->
  Strategy options verify = raise (NoProperties options "jwtField").
Proof.
  intros Ho Hv. unfold Strategy.
  destruct options; try discriminate Ho; cbn; rewrite Hv; reflexivity.
Qed.

Lemma typeof_function (v : value) :
  typeof v = "function" -> exists f, v = VFun f.
Proof. destruct v; cbn; try discriminate. intros _. eexists; reflexivity. Qed.

(** ** The properties of the specification *)

Section Properties.

Variable lookup : value -> value -> value.
Variable verifyJwt : value -> completion value.
Variable app : nat -> list value -> behaviour.

Local Abbreviation extract := (extract lookup).
Local Abbreviation authenticate := (authenticate lookup verifyJwt app).
Local Abbreviation all_present := (all_present lookup).
Local Abbreviation jwt_of := (jwt_of lookup).
Local Abbreviation baseUrl_of := (baseUrl_of lookup).
Local Abbreviation path_of := (path_of lookup).
Local Abbreviation extraData_of := (extraData_of lookup).
Local Abbreviation jwt_arg := (jwt_arg lookup).
Local Abbreviation claims_match := (claims_match lookup).

(** C1.  The request has its four credentials and the collaborator answers
    [r], whose payload differs ([!==]) from the extracted values in
    [baseUrl], [path] or [extraData]: [authenticate] calls [this.fail] with
    the resource-mismatch message (the [badRequestMessage] of the call when
    there is one) and the status 400, and does nothing else.  Nothing is
    assumed of [r.verified]: the condition of lines 98-102 is evaluated
    before the one of line 113, so the outcome is the same when [verified]
    is false. *)
Theorem mismatch_before_verified (self : strategy) (req options r : value) :
  nullish req = false ->
  all_present self req = true ->
  verifyJwt (jwt_arg self req) = Normal r ->
  nullish r = false ->
  nullish (prop r "payload") = false ->
  strict_neq (prop (prop r "payload") "baseUrl") (baseUrl_of self req) = true
  \/ strict_neq (prop (prop r "payload") "path") (path_of self req) = true
  \/ strict_neq (prop (prop r "payload") "extraData") (extraData_of self req)
     = true ->
  authenticate self req options
  = ([VerifyJwt (jwt_arg self req);
      Fail (info_at 104
              (js_or (prop options "badRequestMessage")
                 (VStr "Ooops. JWT payload does not match requested resource.")))
           (Some 400%Z)],
     Normal VUndefined).
Proof.
  intros Hreq Hp Hr Hr0 Hpl Hd.
  rewrite (authenticate_checked _ _ _ self req options r Hreq Hp Hr Hr0 Hpl).
  replace (claims_match (prop r "payload") self req) with false;
    [reflexivity|].
  symmetry. unfold claims_match. unfold strict_neq in Hd.
  destruct Hd as [H|[H|H]]; apply negb_true_iff in H; rewrite H;
    rewrite ?andb_false_r; reflexivity.
Qed.

(** C2.  One of the four extracted values, taken from the body or else from
    the query, is absent or empty: [authenticate] calls [this.fail] with
    the message [Missing credentials] (or the [badRequestMessage] of the
    call) and the status 400, and that is all it does: neither the
    collaborator nor the verify callback is called. *)
Theorem missing_credentials (self : strategy) (req options : value) :
  nullish req = false ->
  absent_or_empty (jwt_of self req) = true
  \/ absent_or_empty (baseUrl_of self req) = true
  \/ absent_or_empty (path_of self req) = true
  \/ absent_or_empty (extraData_of self req) = true ->
  authenticate self req options
  = ([Fail (info_at 90
              (js_or (prop options "badRequestMessage")
                 (VStr "Missing credentials")))
           (Some 400%Z)],
     Normal VUndefined)
  /\ verifyJwt_calls (fst (authenticate self req options)) = 0
  /\ verify_calls (fst (authenticate self req options)) = 0.
Proof.
  intros Hreq Hm.
  assert (Hp : all_present self req = false).
  { unfold all_present.
    destruct Hm as [H|[H|[H|H]]]; apply absent_or_empty_falsy in H;
      rewrite H; rewrite ?andb_false_r; reflexivity. }
  rewrite (authenticate_incomplete _ verifyJwt app self req options Hreq Hp).
  repeat split.
Qed.

(** C3.  The three claims of the payload are strictly equal to the extracted
    values and [verified] is [false]: [authenticate] calls [this.fail] with
    the not-authorized message (or the [badRequestMessage] of the call) and
    the status 400, and the verify callback is not called. *)
Theorem unverified_fails (self : strategy) (req options r : value) :
  nullish req = false ->
  all_present self req = true ->
  verifyJwt (jwt_arg self req) = Normal r ->
  nullish r = false ->
  nullish (prop r "payload") = false ->
  strict_eq (prop (prop r "payload") "baseUrl") (baseUrl_of self req) = true ->
  strict_eq (prop (prop r "payload") "path") (path_of self req) = true ->
  strict_eq (prop (prop r "payload") "extraData") (extraData_of self req)
  = true ->
  prop r "verified" = VBool false ->
  authenticate self req options
  = ([VerifyJwt (jwt_arg self req);
      Fail (info_at 115
              (js_or (prop options "badRequestMessage")
                 (VStr "Ooops. You don't have access to this resource.")))
           (Some 400%Z)],
     Normal VUndefined)
  /\ verify_calls (fst (authenticate self req options)) = 0.
Proof.
  intros Hreq Hp Hr Hr0 Hpl Hb Hpa He Hv.
  rewrite (authenticate_checked _ _ _ self req options r Hreq Hp Hr Hr0 Hpl).
  unfold claims_match. rewrite Hb, Hpa, He, Hv. cbn [andb negb truthy].
  split; reflexivity.
Qed.

(** C4.  The four credentials are present, the claims match, [verified] is
    [true] and the verify callback is the function [f]: the trace of
    [authenticate] has exactly one call of [f], right after the call of the
    collaborator, with the subject of the payload as first argument, or
    with the request and then the subject when [passReqToCallback] is
    set. *)
Theorem verify_called_once (self : strategy) (req options r : value)
    (f : nat) :
  nullish req = false ->
  all_present self req = true ->
  verifyJwt (jwt_arg self req) = Normal r ->
  nullish r = false ->
  nullish (prop r "payload") = false ->
  claims_match (prop r "payload") self req = true ->
  prop r "verified" = VBool true ->
  _verify self = VFun f ->
  (exists rest,
      fst (authenticate self req options)
      = VerifyJwt (jwt_arg self req)
        :: Verify f (if truthy (_passReqToCallback self)
                     then [req; prop (prop r "payload") "sub"]
                     else [prop (prop r "payload") "sub"])
        :: rest)
  /\ verify_calls (fst (authenticate self req options)) = 1.
Proof.
  intros Hreq Hp Hr Hr0 Hpl Hm Hv Hf.
  rewrite (authenticate_checked _ _ _ self req options r Hreq Hp Hr Hr0 Hpl).
  rewrite Hm, Hv. cbn [negb truthy fst].
  rewrite (delegate_function app self req _ f Hf). cbn [fst].
  split.
  - eexists. reflexivity.
  - change (S (verify_calls
                 (fst (run_dones (dones (app f (verify_args self req
                    (prop (prop r "payload") "sub")))))
                  ++ thrown_events (app f (verify_args self req
                       (prop (prop r "payload") "sub"))))) = 1).
    rewrite verify_calls_app, run_dones_no_verify.
    unfold thrown_events. destruct (throws _); reflexivity.
Qed.

(** C6.  The verify callback is the function [f] and, called by
    [authenticate], it throws [x] (after whatever calls of [callback] it
    made): [authenticate] hands [x] to [this.error] as its last action and
    completes normally, so the throw does not leave [authenticate]. *)
Theorem verify_throw_caught (self : strategy) (req options r : value)
    (f : nat) (x : value) :
  nullish req = false ->
  all_present self req = true ->
  verifyJwt (jwt_arg self req) = Normal r ->
  nullish r = false ->
  nullish (prop r "payload") = false ->
  claims_match (prop r "payload") self req = true ->
  truthy (prop r "verified") = true ->
  _verify self = VFun f ->
  throws (app f (verify_args self req (prop (prop r "payload") "sub")))
  = Some x ->
  authenticate self req options
  = ((VerifyJwt (jwt_arg self req)
      :: Verify f (verify_args self req (prop (prop r "payload") "sub"))
      :: fst (run_dones
                (dones (app f (verify_args self req
                                 (prop (prop r "payload") "sub")))))
      ++ [Error (Val x)])%list,
     Normal VUndefined).
Proof.
  intros Hreq Hp Hr Hr0 Hpl Hm Hv Hf Hx.
  rewrite (authenticate_checked _ _ _ self req options r Hreq Hp Hr Hr0 Hpl).
  rewrite Hm, Hv. cbn [negb].
  rewrite (delegate_function app self req _ f Hf). cbn [fst].
  unfold thrown_events. rewrite Hx. reflexivity.
Qed.

(** C9.  In each of the three failures of [authenticate] (missing
    credentials, resource mismatch, not authorized) the message handed to
    [this.fail] is the [badRequestMessage] of the options of the call when
    these have a truthy one, and otherwise the default of that failure. *)
Theorem failure_message_override (self : strategy) (req options r : value) :
  nullish req = false ->
  (all_present self req = false ->
   authenticate self req options
   = ([Fail (info_at 90
               (if truthy (prop options "badRequestMessage")
                then prop options "badRequestMessage"
                else VStr "Missing credentials"))
            (Some 400%Z)],
      Normal VUndefined))
  /\ (all_present self req = true ->
      verifyJwt (jwt_arg self req) = Normal r ->
      nullish r = false ->
      nullish (prop r "payload") = false ->
      (claims_match (prop r "payload") self req = false ->
       authenticate self req options
       = ([VerifyJwt (jwt_arg self req);
           Fail (info_at 104
                   (if truthy (prop options "badRequestMessage")
                    then prop options "badRequestMessage"
                    else VStr "Ooops. JWT payload does not match requested resource."))
                (Some 400%Z)],
          Normal VUndefined))
      /\ (claims_match (prop r "payload") self req = true ->
          truthy (prop r "verified") = false ->
          authenticate self req options
          = ([VerifyJwt (jwt_arg self req);
              Fail (info_at 115
                      (if truthy (prop options "badRequestMessage")
                       then prop options "badRequestMessage"
                       else VStr "Ooops. You don't have access to this resource."))
                   (Some 400%Z)],
             Normal VUndefined))).
Proof.
  intros Hreq. split.
  - intros Hp. apply authenticate_incomplete; assumption.
  - intros Hp Hr Hr0 Hpl.
    rewrite (authenticate_checked _ _ _ self req options r Hreq Hp Hr Hr0 Hpl).
    split.
    + intros ->. reflexivity.
    + intros -> ->. reflexivity.
Qed.

(** C10.  The subject is not checked: when the four credentials are present,
    the claims match, [verified] is [true] and the payload has no [sub],
    the verify callback [f] is still called, with [undefined] where the
    subject goes. *)
Theorem absent_subject_delegated (self : strategy) (req options r : value)
    (f : nat) :
  nullish req = false ->
  all_present self req = true ->
  verifyJwt (jwt_arg self req) = Normal r ->
  nullish r = false ->
  nullish (prop r "payload") = false ->
  claims_match (prop r "payload") self req = true ->
  prop r "verified" = VBool true ->
  _verify self = VFun f ->
  prop (prop r "payload") "sub" = VUndefined ->
  exists rest,
    fst (authenticate self req options)
    = VerifyJwt (jwt_arg self req)
      :: Verify f (if truthy (_passReqToCallback self)
                   then [req; VUndefined]
                   else [VUndefined])
      :: rest.
Proof.
  intros Hreq Hp Hr Hr0 Hpl Hm Hv Hf Hs.
  rewrite (authenticate_checked _ _ _ self req options r Hreq Hp Hr Hr0 Hpl).
  rewrite Hm, Hv. cbn [negb truthy fst].
  rewrite (delegate_function app self req _ f Hf). cbn [fst].
  unfold verify_args. rewrite Hs. eexists. reflexivity.
Qed.

End Properties.

(** C5.  The completion handler, in this order: a truthy [err] goes to
    [this.error], whatever [user] is; otherwise a falsy [user] makes it call
    [this.fail(info)], without a status; otherwise it calls
    [this.success(user, info)].  It does nothing else. *)
Theorem callback_outcome (err user info : value) :
  (truthy err = true ->
   callback err user info = ([Error (Val err)], Normal VUndefined))
  /\ (truthy err = false -> truthy user = false ->
      callback err user info = ([Fail info None], Normal VUndefined))
  /\ (truthy err = false -> truthy user = true ->
      callback err user info = ([Success user info], Normal VUndefined)).
Proof.
  unfold callback. repeat split.
  - intros ->. reflexivity.
  - intros -> ->. reflexivity.
  - intros -> ->. reflexivity.
Qed.

(** C8.  The constructor throws when it is given no verify callback (no
    function as first argument and a falsy second argument); a function as
    only argument is the verify callback of an instance with the default
    options; and when the constructor returns an instance, its verify
    callback is a truthy value it was given: the first argument when that
    is a function, the second otherwise. *)
Theorem construction_requires_verify :
  (forall options verify : value,
      typeof options <> "function" ->
      truthy verify = false ->
      Strategy options verify
      = ([], Throw (TypeError "LitProtocolStrategy requires a verify callback")))
  /\ (forall f : nat,
         Strategy (VFun f) VUndefined
         = ([], Normal {| _jwtField := VStr "jwt";
                          _baseUrlField := VStr "baseUrl";
                          _pathField := VStr "path";
                          _extraDataField := VStr "extraData";
                          name := "litProtocol";
                          _verify := VFun f;
                          _passReqToCallback := VUndefined |}))
  /\ (forall (options verify : value) (t : list event) (self : strategy),
         Strategy options verify = (t, Normal self) ->
         truthy (_verify self) = true
         /\ ((typeof options = "function" /\ _verify self = options)
             \/ (typeof options <> "function" /\ _verify self = verify))).
Proof.
  split; [exact Strategy_no_verify|].
  split; [intros f; reflexivity|].
  intros options verify t self HS.
  destruct (String.eqb_spec (typeof options) "function") as [E|E].
  - destruct (typeof_function _ E) as [f ->].
    rewrite Strategy_function_first in HS. injection HS as _ <-.
    split; [reflexivity|]. left. split; reflexivity.
  - destruct (truthy verify) eqn:Hv.
    2:{ rewrite (Strategy_no_verify _ _ E Hv) in HS. discriminate HS. }
    destruct (nullish options) eqn:Ho.
    1:{ rewrite (Strategy_no_options _ _ Ho Hv) in HS. discriminate HS. }
    rewrite (Strategy_options _ _ E Ho Hv) in HS. injection HS as _ <-.
    split; [exact Hv|]. right. split; [exact E | reflexivity].
Qed.

(** ** The properties on concrete requests *)

(** The token [t4] is for another path and is not verified: the failure is
    the resource mismatch. *)
Lemma mismatch_before_verified_witness :
  prop (sample_result false (sample_payload "/other")) "verified" = VBool false
  /\ authenticate sample_lookup sample_verifyJwt sample_app
       (default_strategy (VFun 1)) (request (sample_body "t4") VUndefined)
       VUndefined
     = ([VerifyJwt (VObj (Fresh 95) [("jwt", VStr "t4")]);
         Fail (info_at 104 (VStr mismatch_message)) (Some 400%Z)],
        Normal VUndefined).
Proof.
  split; [reflexivity|].
  apply (mismatch_before_verified sample_lookup sample_verifyJwt sample_app
           (default_strategy (VFun 1)) (request (sample_body "t4") VUndefined)
           VUndefined (sample_result false (sample_payload "/other")));
    try reflexivity.
  right; left; reflexivity.
Defined.

(** A body without [path], and no query. *)
Lemma missing_credentials_witness :
  authenticate sample_lookup sample_verifyJwt sample_app
    (default_strategy (VFun 1))
    (request (VObj (Addr 2)
                [("jwt", VStr "t1"); ("baseUrl", VStr "https://x");
                 ("extraData", VStr "d1")])
             VUndefined)
    VUndefined
  = ([Fail (info_at 90 (VStr "Missing credentials")) (Some 400%Z)],
     Normal VUndefined).
Proof.
  apply (missing_credentials sample_lookup sample_verifyJwt sample_app
           (default_strategy (VFun 1))
           (request (VObj (Addr 2)
                       [("jwt", VStr "t1"); ("baseUrl", VStr "https://x");
                        ("extraData", VStr "d1")])
                    VUndefined)
           VUndefined);
    [reflexivity | right; right; left; reflexivity].
Defined.

(** The token [t3] matches the request and is not verified. *)
Lemma unverified_fails_witness :
  authenticate sample_lookup sample_verifyJwt sample_app
    (default_strategy (VFun 1)) (request (sample_body "t3") VUndefined)
    VUndefined
  = ([VerifyJwt (VObj (Fresh 95) [("jwt", VStr "t3")]);
      Fail (info_at 115 (VStr unauthorized_message)) (Some 400%Z)],
     Normal VUndefined).
Proof.
  apply (unverified_fails sample_lookup sample_verifyJwt sample_app
           (default_strategy (VFun 1)) (request (sample_body "t3") VUndefined)
           VUndefined (sample_result false (sample_payload "/r")));
    reflexivity.
Defined.

(** The token [t1] and the function [1]: one call, with the subject. *)
Lemma verify_called_once_witness :
  verify_calls
    (fst (authenticate sample_lookup sample_verifyJwt sample_app
            (default_strategy (VFun 1))
            (request (sample_body "t1") VUndefined) VUndefined))
  = 1.
Proof.
  apply (verify_called_once sample_lookup sample_verifyJwt sample_app
           (default_strategy (VFun 1)) (request (sample_body "t1") VUndefined)
           VUndefined (sample_result true (sample_payload "/r")) 1);
    reflexivity.
Defined.

(** The function [2] throws [boom]. *)
Lemma verify_throw_caught_witness :
  authenticate sample_lookup sample_verifyJwt sample_app
    (default_strategy (VFun 2)) (request (sample_body "t1") VUndefined)
    VUndefined
  = ([VerifyJwt (VObj (Fresh 95) [("jwt", VStr "t1")]);
      Verify 2 [VStr "addr1"];
      Error (Val (VStr "boom"))],
     Normal VUndefined).
Proof.
  apply (verify_throw_caught sample_lookup sample_verifyJwt sample_app
           (default_strategy (VFun 2)) (request (sample_body "t1") VUndefined)
           VUndefined (sample_result true (sample_payload "/r")) 2
           (VStr "boom"));
    reflexivity.
Defined.

(** A call with its own [badRequestMessage], on a request without
    credentials. *)
Lemma failure_message_override_witness :
  authenticate sample_lookup sample_verifyJwt sample_app
    (default_strategy (VFun 1)) (request VUndefined VUndefined)
    (VObj (Addr 7) [("badRequestMessage", VStr "Nope")])
  = ([Fail (info_at 90 (VStr "Nope")) (Some 400%Z)], Normal VUndefined).
Proof.
  apply (failure_message_override sample_lookup sample_verifyJwt sample_app
           (default_strategy (VFun 1)) (request VUndefined VUndefined)
           (VObj (Addr 7) [("badRequestMessage", VStr "Nope")]) VUndefined);
    reflexivity.
Defined.

(** The payload of the token [t5] has no [sub]. *)
Lemma absent_subject_delegated_witness :
  exists rest,
    fst (authenticate sample_lookup sample_verifyJwt sample_app
           (default_strategy (VFun 1))
           (request (sample_body "t5") VUndefined) VUndefined)
    = VerifyJwt (VObj (Fresh 95) [("jwt", VStr "t5")])
      :: Verify 1 [VUndefined] :: rest.
Proof.
  apply (absent_subject_delegated sample_lookup sample_verifyJwt sample_app
           (default_strategy (VFun 1)) (request (sample_body "t5") VUndefined)
           VUndefined
           (sample_result true
              (VObj (Addr 4)
                 [("baseUrl", VStr "https://x"); ("path", VStr "/r");
                  ("extraData", VStr "d1")]))
           1);
    reflexivity.
Defined.

(** An error and a user together: the error wins. *)
Lemma callback_outcome_witness :
  callback (VStr "oops") (sample_user (VStr "addr1")) VUndefined
  = ([Error (Val (VStr "oops"))], Normal VUndefined).
Proof.
  apply (proj1 (callback_outcome (VStr "oops") (sample_user (VStr "addr1"))
                  VUndefined)).
  reflexivity.
Defined.

(** Options and nothing else. *)
Lemma construction_requires_verify_witness :
  Strategy (VObj (Addr 8) [("jwtField", VStr "token")]) VUndefined
  = ([], Throw (TypeError "LitProtocolStrategy requires a verify callback")).
Proof.
  apply (proj1 construction_requires_verify); [discriminate | reflexivity].
Defined.

(** ** Beyond the specification: the rest of the behaviour of the code *)

(** Two strictly equal values are both truthy or both falsy. *)
Lemma strict_eq_truthy (a b : value) :
  strict_eq a b = true -> truthy a = truthy b.
Proof.
  destruct a, b; cbn; try discriminate; try reflexivity.
  - intros H. apply Bool.eqb_prop in H. now subst.
  - intros H. apply Z.eqb_eq in H. now subst.
  - intros H. apply String.eqb_eq in H. now subst.
Qed.

Lemma callback_trace (err user info : value) :
  fst (callback err user info) = [outcome_of [err; user; info]].
Proof.
  unfold callback, outcome_of. cbn [arg nth].
  destruct (truthy err); [reflexivity|].
  destruct (truthy user); reflexivity.
Qed.

(** Absent arguments are [undefined]: the outcome of a call depends on its
    first three arguments only. *)
Lemma outcome_of_args (d : list value) :
  outcome_of [arg 0 d; arg 1 d; arg 2 d] = outcome_of d.
Proof. reflexivity. Qed.

Lemma run_dones_trace (ds : list (list value)) :
  fst (run_dones ds) = map outcome_of ds.
Proof.
  induction ds as [|d ds IH]; [reflexivity|].
  rewrite run_dones_cons. cbn [fst map].
  rewrite callback_trace, outcome_of_args, IH. reflexivity.
Qed.

Lemma outcomes_app (t u : list event) :
  outcomes (t ++ u) = (outcomes t ++ outcomes u)%list.
Proof. apply filter_app. Qed.

Lemma outcomes_map_outcome_of (ds : list (list value)) :
  outcomes (map outcome_of ds) = map outcome_of ds.
Proof.
  induction ds as [|d ds IH]; [reflexivity|].
  cbn [map]. unfold outcomes in *. cbn [filter].
  replace (is_outcome (outcome_of d)) with true.
  - rewrite IH. reflexivity.
  - unfold outcome_of.
    destruct (truthy (arg 0 d)); [reflexivity|].
    destruct (truthy (arg 1 d)); reflexivity.
Qed.

Lemma outcomes_thrown_events (b : behaviour) :
  outcomes (thrown_events b) = thrown_events b.
Proof. unfold thrown_events. destruct (throws b); reflexivity. Qed.

Lemma verifyJwt_calls_app (t u : list event) :
  verifyJwt_calls (t ++ u) = verifyJwt_calls t + verifyJwt_calls u.
Proof. unfold verifyJwt_calls. rewrite filter_app, length_app. reflexivity. Qed.

Lemma verifyJwt_calls_map_outcome_of (ds : list (list value)) :
  verifyJwt_calls (map outcome_of ds) = 0.
Proof.
  induction ds as [|d ds IH]; [reflexivity|].
  cbn [map]. unfold verifyJwt_calls in *. cbn [filter].
  replace (is_VerifyJwt (outcome_of d)) with false; [exact IH|].
  unfold outcome_of.
  destruct (truthy (arg 0 d)); [reflexivity|].
  destruct (truthy (arg 1 d)); reflexivity.
Qed.

Lemma verifyJwt_calls_thrown_events (b : behaviour) :
  verifyJwt_calls (thrown_events b) = 0.
Proof. unfold thrown_events. destruct (throws b); reflexivity. Qed.

(** A [Success] among the outcomes of the calls [ds] comes from a call
    with a falsy error and a truthy user. *)
Lemma Success_in_outcomes (ds : list (list value)) (user info : value) :
  In (Success user info) (map outcome_of ds) ->
  exists d, In d ds /\ truthy (arg 0 d) = false /\ truthy (arg 1 d) = true
            /\ user = arg 1 d /\ info = arg 2 d.
Proof.
  intros H. apply in_map_iff in H. destruct H as [d [Hd Hin]].
  exists d. unfold outcome_of in Hd.
  destruct (truthy (arg 0 d)) eqn:E0; [discriminate Hd|].
  destruct (truthy (arg 1 d)) eqn:E1; [|discriminate Hd].
  injection Hd as <- <-. repeat split; assumption.
Qed.

Section Coverage.

Variable lookup : value -> value -> value.
Variable verifyJwt : value -> completion value.
Variable app : nat -> list value -> behaviour.

Local Abbreviation extract := (extract lookup).
Local Abbreviation delegate := (delegate app).
Local Abbreviation authenticate := (authenticate lookup verifyJwt app).
Local Abbreviation all_present := (all_present lookup).
Local Abbreviation jwt_arg := (jwt_arg lookup).
Local Abbreviation claims_match := (claims_match lookup).

(** The steps up to the call of the collaborator, for a request with its
    four credentials. *)
Ltac to_collaborator self req Hreq Hp :=
  unfold authenticate;
  rewrite !(extract_object lookup), !bind_ret by exact Hreq;
  unfold all_present, jwt_of, baseUrl_of, path_of, extraData_of in Hp;
  rewrite <- !negb_andb, Hp; cbn [negb];
  fold (jwt_of lookup self req);
  change (VObj (Fresh 95) [("jwt", jwt_of lookup self req)])
    with (jwt_arg self req).

Lemma authenticate_collaborator_throws (self : strategy)
    (req options : value) (e : thrown) :
  nullish req = false ->
  all_present self req = true ->
  verifyJwt (jwt_arg self req) = Throw e ->
  authenticate self req options = ([VerifyJwt (jwt_arg self req)], Throw e).
Proof.
  intros Hreq Hp He. to_collaborator self req Hreq Hp.
  rewrite (call_verifyJwt_throw _ _ _ He). reflexivity.
Qed.

Lemma authenticate_no_result (self : strategy) (req options r : value) :
  nullish req = false ->
  all_present self req = true ->
  verifyJwt (jwt_arg self req) = Normal r ->
  nullish r = true ->
  authenticate self req options
  = ([VerifyJwt (jwt_arg self req)], Throw (NoProperties r "verified")).
Proof.
  intros Hreq Hp Hr Hn. to_collaborator self req Hreq Hp.
  rewrite (call_verifyJwt_normal _ _ _ Hr), bind_normal.
  rewrite (get_nullish r "verified" Hn), bind_raise. reflexivity.
Qed.

Lemma authenticate_no_payload (self : strategy) (req options r : value) :
  nullish req = false ->
  all_present self req = true ->
  verifyJwt (jwt_arg self req) = Normal r ->
  nullish r = false ->
  nullish (prop r "payload") = true ->
  authenticate self req options
  = ([VerifyJwt (jwt_arg self req)],
     Throw (NoProperties (prop r "payload") "sub")).
Proof.
  intros Hreq Hp Hr Hr0 Hn. to_collaborator self req Hreq Hp.
  rewrite (call_verifyJwt_normal _ _ _ Hr), bind_normal.
  rewrite !(get_object r) by exact Hr0. rewrite !bind_ret.
  rewrite (get_nullish _ "sub" Hn), bind_raise. reflexivity.
Qed.

(** Every run of [authenticate] on a request with its four credentials. *)
Lemma authenticate_present (self : strategy) (req options : value) :
  nullish req = false ->
  all_present self req = true ->
  authenticate self req options
  = match verifyJwt (jwt_arg self req) with
    | Throw e => ([VerifyJwt (jwt_arg self req)], Throw e)
    | Normal r =>
        if nullish r
        then ([VerifyJwt (jwt_arg self req)],
              Throw (NoProperties r "verified"))
        else if nullish (prop r "payload")
        then ([VerifyJwt (jwt_arg self req)],
              Throw (NoProperties (prop r "payload") "sub"))
        else if negb (claims_match (prop r "payload") self req)
        then ([VerifyJwt (jwt_arg self req);
               Fail (info_at 104 (message options mismatch_message))
                    (Some 400%Z)],
              Normal VUndefined)
        else if negb (truthy (prop r "verified"))
        then ([VerifyJwt (jwt_arg self req);
               Fail (info_at 115 (message options unauthorized_message))
                    (Some 400%Z)],
              Normal VUndefined)
        else (VerifyJwt (jwt_arg self req)
              :: fst (delegate self req (prop (prop r "payload") "sub")),
              Normal VUndefined)
    end.
Proof.
  intros Hreq Hp.
  destruct (verifyJwt (jwt_arg self req)) as [r|e] eqn:Hr.
  - destruct (nullish r) eqn:Hr0.
    + apply authenticate_no_result; assumption.
    + destruct (nullish (prop r "payload")) eqn:Hpl.
      * apply authenticate_no_payload; assumption.
      * apply authenticate_checked; assumption.
  - apply authenticate_collaborator_throws; assumption.
Qed.

(** The trace of the call of the verify callback. *)
Lemma delegate_trace (self : strategy) (req address : value) :
  fst (delegate self req address)
  = match _verify self with
    | VFun f =>
        (Verify f (verify_args self req address)
         :: map outcome_of (dones (app f (verify_args self req address)))
         ++ thrown_events (app f (verify_args self req address)))%list
    | v => [Error (NotCallable v)]
    end.
Proof.
  destruct (_verify self) eqn:E;
    try (rewrite delegate_not_callable by congruence; rewrite E; reflexivity).
  rewrite (delegate_function app self req address f E). cbn [fst].
  rewrite run_dones_trace. reflexivity.
Qed.

(** *** The collaborator *)

(** X5.  What [LitJsSdk.verifyJwt] throws leaves [authenticate]: the [try]
    of lines 136-144 does not cover line 95, and the host is told
    nothing. *)
Theorem collaborator_throw_escapes (self : strategy) (req options : value)
    (e : thrown) :
  nullish req = false ->
  all_present self req = true ->
  verifyJwt (jwt_arg self req) = Throw e ->
  authenticate self req options = ([VerifyJwt (jwt_arg self req)], Throw e)
  /\ outcomes (fst (authenticate self req options)) = [].
Proof.
  intros Hreq Hp He.
  rewrite (authenticate_collaborator_throws self req options e Hreq Hp He).
  split; reflexivity.
Qed.

(** X6.  A result of the collaborator that is [undefined] or [null], or
    whose [payload] is, makes [authenticate] throw at the destructuring of
    line 95, or at the read of [payload.sub] of line 96. *)
Theorem malformed_result_throws (self : strategy) (req options r : value) :
  nullish req = false ->
  all_present self req = true ->
  verifyJwt (jwt_arg self req) = Normal r ->
  (nullish r = true ->
   authenticate self req options
   = ([VerifyJwt (jwt_arg self req)], Throw (NoProperties r "verified")))
  /\ (nullish r = false ->
      nullish (prop r "payload") = true ->
      authenticate self req options
      = ([VerifyJwt (jwt_arg self req)],
         Throw (NoProperties (prop r "payload") "sub"))).
Proof.
  intros Hreq Hp Hr. split.
  - intros Hn. apply authenticate_no_result; assumption.
  - intros Hr0 Hn. apply authenticate_no_payload; assumption.
Qed.

(** X8.  The collaborator is called once when the request has its four
    credentials, and is not called otherwise, whatever else happens. *)
Theorem collaborator_called_iff_present (self : strategy)
    (req options : value) :
  verifyJwt_calls (fst (authenticate self req options))
  = if negb (nullish req) && all_present self req then 1 else 0.
Proof.
  destruct (nullish req) eqn:Hreq; cbn [negb andb].
  { rewrite (authenticate_no_request lookup verifyJwt app self req options Hreq).
    reflexivity. }
  destruct (all_present self req) eqn:Hp.
  2:{ rewrite (authenticate_incomplete lookup verifyJwt app self req options
                 Hreq Hp).
      reflexivity. }
  rewrite (authenticate_present self req options Hreq Hp).
  destruct (verifyJwt (jwt_arg self req)) as [r|e]; [|reflexivity].
  destruct (nullish r); [reflexivity|].
  destruct (nullish (prop r "payload")); [reflexivity|].
  destruct (negb (claims_match (prop r "payload") self req)); [reflexivity|].
  destruct (negb (truthy (prop r "verified"))); [reflexivity|].
  cbn [fst]. rewrite delegate_trace.
  change (verifyJwt_calls (VerifyJwt (jwt_arg self req) :: ?t))
    with (S (verifyJwt_calls t)).
  f_equal.
  destruct (_verify self); try reflexivity.
  change (verifyJwt_calls (Verify ?g ?a :: ?t)) with (verifyJwt_calls t).
  rewrite verifyJwt_calls_app, verifyJwt_calls_map_outcome_of,
    verifyJwt_calls_thrown_events.
  reflexivity.
Qed.

(** *** The checks *)

(** X11.  [verified] is tested for truthiness: a result without [verified],
    or with any falsy one, is refused like [verified: false]. *)
Theorem falsy_verified_fails (self : strategy) (req options r : value) :
  nullish req = false ->
  all_present self req = true ->
  verifyJwt (jwt_arg self req) = Normal r ->
  nullish r = false ->
  nullish (prop r "payload") = false ->
  claims_match (prop r "payload") self req = true ->
  truthy (prop r "verified") = false ->
  authenticate self req options
  = ([VerifyJwt (jwt_arg self req);
      Fail (info_at 115
              (js_or (prop options "badRequestMessage")
                 (VStr "Ooops. You don't have access to this resource.")))
           (Some 400%Z)],
     Normal VUndefined).
Proof.
  intros Hreq Hp Hr Hr0 Hpl Hm Hv.
  rewrite (authenticate_checked _ _ _ self req options r Hreq Hp Hr Hr0 Hpl).
  rewrite Hm, Hv. reflexivity.
Qed.

(** X12.  A payload in which [baseUrl], [path] or [extraData] is missing, or
    falsy, never matches: the extracted values are truthy once line 88 is
    passed. *)
Theorem falsy_claim_mismatch (self : strategy) (req options r : value) :
  nullish req = false ->
  all_present self req = true ->
  verifyJwt (jwt_arg self req) = Normal r ->
  nullish r = false ->
  nullish (prop r "payload") = false ->
  truthy (prop (prop r "payload") "baseUrl") = false
  \/ truthy (prop (prop r "payload") "path") = false
  \/ truthy (prop (prop r "payload") "extraData") = false ->
  authenticate self req options
  = ([VerifyJwt (jwt_arg self req);
      Fail (info_at 104
              (js_or (prop options "badRequestMessage")
                 (VStr "Ooops. JWT payload does not match requested resource.")))
           (Some 400%Z)],
     Normal VUndefined).
Proof.
  intros Hreq Hp Hr Hr0 Hpl Hf.
  rewrite (authenticate_checked _ _ _ self req options r Hreq Hp Hr Hr0 Hpl).
  replace (claims_match (prop r "payload") self req) with false;
    [reflexivity|].
  symmetry. unfold claims_match.
  unfold all_present in Hp.
  apply andb_prop in Hp. destruct Hp as [Hp He].
  apply andb_prop in Hp. destruct Hp as [Hp Hpa].
  apply andb_prop in Hp. destruct Hp as [_ Hb].
  destruct Hf as [H|[H|H]].
  - destruct (strict_eq _ (baseUrl_of lookup self req)) eqn:E; [|reflexivity].
    apply strict_eq_truthy in E. congruence.
  - destruct (strict_eq _ (path_of lookup self req)) eqn:E;
      [|rewrite andb_false_r; reflexivity].
    apply strict_eq_truthy in E. congruence.
  - destruct (strict_eq _ (extraData_of lookup self req)) eqn:E;
      [|rewrite andb_false_r; reflexivity].
    apply strict_eq_truthy in E. congruence.
Qed.

(** *** The verify callback *)

(** The error of a call of something that is not a function is reported
    only by the call of line 138 or 140, which comes after all the
    checks. *)
Lemma NotCallable_after_checks (self : strategy) (req options v : value) :
  In (Error (NotCallable v)) (fst (authenticate self req options)) ->
  v = _verify self
  /\ nullish req = false
  /\ all_present self req = true
  /\ exists r,
       verifyJwt (jwt_arg self req) = Normal r
       /\ claims_match (prop r "payload") self req = true
       /\ truthy (prop r "verified") = true.
Proof.
  intros Hin.
  destruct (nullish req) eqn:Hreq.
  { rewrite (authenticate_no_request lookup verifyJwt app self req options Hreq)
      in Hin.
    destruct Hin. }
  destruct (all_present self req) eqn:Hp.
  2:{ rewrite (authenticate_incomplete lookup verifyJwt app self req options
                 Hreq Hp) in Hin.
      destruct Hin as [H|[]]. discriminate H. }
  rewrite (authenticate_present self req options Hreq Hp) in Hin.
  destruct (verifyJwt (jwt_arg self req)) as [r|e] eqn:Hr.
  2:{ destruct Hin as [H|[]]. discriminate H. }
  destruct (nullish r).
  { destruct Hin as [H|[]]. discriminate H. }
  destruct (nullish (prop r "payload")).
  { destruct Hin as [H|[]]. discriminate H. }
  destruct (claims_match (prop r "payload") self req) eqn:Hm; cbn [negb] in Hin.
  2:{ destruct Hin as [H|[H|[]]]; discriminate H. }
  destruct (truthy (prop r "verified")) eqn:Hv; cbn [negb] in Hin.
  2:{ destruct Hin as [H|[H|[]]]; discriminate H. }
  cbn [fst] in Hin. rewrite delegate_trace in Hin.
  destruct Hin as [H|Hin]; [discriminate H|].
  destruct (_verify self) as [| | | | | | |f] eqn:Hf;
    try (destruct Hin as [H|[]]; injection H as <-;
         split; [reflexivity|]; split; [reflexivity|]; split; [reflexivity|];
         exists r; repeat split; assumption).
  destruct Hin as [H|Hin]; [discriminate H|].
  apply in_app_or in Hin. destruct Hin as [Hin|Hin].
  - apply in_map_iff in Hin. destruct Hin as [d [Hd _]].
    unfold outcome_of in Hd.
    destruct (truthy (arg 0 d)); [discriminate Hd|].
    destruct (truthy (arg 1 d)); discriminate Hd.
  - unfold thrown_events in Hin.
    destruct (throws _); [destruct Hin as [H|[]]; discriminate H | destruct Hin].
Qed.

(** X4.  The constructor accepts as verify callback any truthy value, also
    one that is not a function, and returns an instance that holds it.
    With such an instance the checks of [authenticate] run as usual, and it
    is only when they have all passed that the value is found out: the
    [TypeError] of its call is caught and handed to [this.error], and
    [authenticate] returns.  That error is reported in no other run. *)
Theorem non_callable_verify (options verify req opts : value) :
  typeof options <> "function" ->
  nullish options = false ->
  truthy verify = true ->
  (forall f, verify <> VFun f) ->
  exists self,
    Strategy options verify = ([], Normal self)
    /\ _verify self = verify
    /\ (forall r,
           nullish req = false ->
           all_present self req = true ->
           verifyJwt (jwt_arg self req) = Normal r ->
           nullish r = false ->
           nullish (prop r "payload") = false ->
           claims_match (prop r "payload") self req = true ->
           truthy (prop r "verified") = true ->
           authenticate self req opts
           = ([VerifyJwt (jwt_arg self req); Error (NotCallable verify)],
              Normal VUndefined))
    /\ (forall v,
           In (Error (NotCallable v)) (fst (authenticate self req opts)) ->
           v = verify
           /\ nullish req = false
           /\ all_present self req = true
           /\ exists r,
                verifyJwt (jwt_arg self req) = Normal r
                /\ claims_match (prop r "payload") self req = true
                /\ truthy (prop r "verified") = true).
Proof.
  intros E Ho Hv Hf.
  eexists. split; [apply (Strategy_options options verify E Ho Hv)|].
  split; [reflexivity|]. split.
  - intros r Hreq Hp Hr Hr0 Hpl Hm Hvd.
    rewrite (authenticate_checked _ _ _ _ req opts r Hreq Hp Hr Hr0 Hpl).
    rewrite Hm, Hvd. cbn [negb].
    rewrite delegate_not_callable by exact Hf. reflexivity.
  - intros v Hin. exact (NotCallable_after_checks _ req opts v Hin).
Qed.

(** X10.  Once the checks have passed, the host receives one outcome for
    each call of [callback] the verify function makes before it returns,
    in the order of the calls, and then an error if the function throws:
    nothing stops a second call, and a function that returns without
    calling [callback] leaves the request without outcome. *)
Theorem outcomes_follow_done_calls (self : strategy) (req options r : value)
    (f : nat) :
  nullish req = false ->
  all_present self req = true ->
  verifyJwt (jwt_arg self req) = Normal r ->
  nullish r = false ->
  nullish (prop r "payload") = false ->
  claims_match (prop r "payload") self req = true ->
  truthy (prop r "verified") = true ->
  _verify self = VFun f ->
  outcomes (fst (authenticate self req options))
  = (map outcome_of
       (dones (app f (verify_args self req (prop (prop r "payload") "sub"))))
     ++ thrown_events
          (app f (verify_args self req (prop (prop r "payload") "sub"))))%list.
Proof.
  intros Hreq Hp Hr Hr0 Hpl Hm Hv Hf.
  rewrite (authenticate_checked _ _ _ self req options r Hreq Hp Hr Hr0 Hpl).
  rewrite Hm, Hv. cbn [negb fst].
  rewrite delegate_trace, Hf.
  change (outcomes (VerifyJwt ?a :: Verify ?g ?b :: ?t)) with (outcomes t).
  rewrite outcomes_app, outcomes_map_outcome_of, outcomes_thrown_events.
  reflexivity.
Qed.

(** *** What [authenticate] never does *)

(** X9.  [this.success(user, info)] is called only for a request with its
    four credentials, whose token the collaborator answered with matching
    claims and a truthy [verified], and only because the verify function
    called [callback] with a falsy error, the truthy [user] and [info]. *)
Theorem success_requires_checks (self : strategy) (req options : value)
    (user info : value) :
  In (Success user info) (fst (authenticate self req options)) ->
  nullish req = false
  /\ all_present self req = true
  /\ exists (r : value) (f : nat) (d : list value),
       verifyJwt (jwt_arg self req) = Normal r
       /\ claims_match (prop r "payload") self req = true
       /\ truthy (prop r "verified") = true
       /\ _verify self = VFun f
       /\ In d (dones (app f (verify_args self req
                                (prop (prop r "payload") "sub"))))
       /\ truthy (arg 0 d) = false
       /\ truthy (arg 1 d) = true
       /\ user = arg 1 d
       /\ info = arg 2 d.
Proof.
  intros Hin.
  destruct (nullish req) eqn:Hreq.
  { rewrite (authenticate_no_request lookup verifyJwt app self req options Hreq)
      in Hin.
    destruct Hin. }
  destruct (all_present self req) eqn:Hp.
  2:{ rewrite (authenticate_incomplete lookup verifyJwt app self req options
                 Hreq Hp) in Hin.
      destruct Hin as [H|[]]. discriminate H. }
  rewrite (authenticate_present self req options Hreq Hp) in Hin.
  destruct (verifyJwt (jwt_arg self req)) as [r|e] eqn:Hr.
  2:{ destruct Hin as [H|[]]. discriminate H. }
  destruct (nullish r).
  { destruct Hin as [H|[]]. discriminate H. }
  destruct (nullish (prop r "payload")).
  { destruct Hin as [H|[]]. discriminate H. }
  destruct (claims_match (prop r "payload") self req) eqn:Hm; cbn [negb] in Hin.
  2:{ destruct Hin as [H|[H|[]]]; discriminate H. }
  destruct (truthy (prop r "verified")) eqn:Hv; cbn [negb] in Hin.
  2:{ destruct Hin as [H|[H|[]]]; discriminate H. }
  cbn [fst] in Hin. rewrite delegate_trace in Hin.
  destruct Hin as [H|Hin]; [discriminate H|].
  destruct (_verify self) as [| | | | | | |f] eqn:Hf;
    try (destruct Hin as [H|[]]; discriminate H).
  destruct Hin as [H|Hin]; [discriminate H|].
  apply in_app_or in Hin. destruct Hin as [Hin|Hin].
  - apply Success_in_outcomes in Hin.
    destruct Hin as [d [Hd [H0 [H1 [Hu Hi]]]]].
    split; [reflexivity|]. split; [reflexivity|].
    exists r, f, d. repeat split; assumption.
  - unfold thrown_events in Hin.
    destruct (throws _); [destruct Hin as [H|[]]; discriminate H | destruct Hin].
Qed.

(** X14.  Whenever [authenticate] throws, the host has been told nothing
    and the verify callback has not been called: a throw and an outcome
    never come together.  And for a request that is an object and whose
    four extracted values are truthy, it throws only when the collaborator
    throws, or when the collaborator's result, or its payload, is
    [undefined] or [null]; what the verify callback throws is not among
    these. *)
Theorem throws_before_any_outcome (self : strategy) (req options : value)
    (e : thrown) :
  snd (authenticate self req options) = Throw e ->
  outcomes (fst (authenticate self req options)) = []
  /\ verify_calls (fst (authenticate self req options)) = 0
  /\ (nullish req = false ->
      all_present self req = true ->
      verifyJwt (jwt_arg self req) = Throw e
      \/ exists r, verifyJwt (jwt_arg self req) = Normal r
                   /\ (nullish r = true
                       \/ nullish (prop r "payload") = true)).
Proof.
  destruct (nullish req) eqn:Hreq.
  { rewrite (authenticate_no_request lookup verifyJwt app self req options Hreq).
    intros _. repeat split. discriminate. }
  destruct (all_present self req) eqn:Hp.
  2:{ rewrite (authenticate_incomplete lookup verifyJwt app self req options
                 Hreq Hp).
      discriminate. }
  rewrite (authenticate_present self req options Hreq Hp).
  destruct (verifyJwt (jwt_arg self req)) as [r|e'] eqn:Hr.
  2:{ intros H. injection H as <-.
      repeat split. intros _ _. left. reflexivity. }
  destruct (nullish r) eqn:Hr0.
  { intros _. repeat split. intros _ _. right.
    exists r. split; [reflexivity | left; exact Hr0]. }
  destruct (nullish (prop r "payload")) eqn:Hpl.
  { intros _. repeat split. intros _ _. right.
    exists r. split; [reflexivity | right; exact Hpl]. }
  destruct (negb (claims_match (prop r "payload") self req)); [discriminate|].
  destruct (negb (truthy (prop r "verified"))); discriminate.
Qed.

(** X15.  When [authenticate] returns without having called the verify
    callback, it has reported exactly one outcome itself: a failure with
    the status 400, or the error of a verify callback that cannot be
    called. *)
Theorem single_outcome_without_verify (self : strategy) (req options : value)
    (v : value) :
  snd (authenticate self req options) = Normal v ->
  verify_calls (fst (authenticate self req options)) = 0 ->
  (exists info,
      outcomes (fst (authenticate self req options))
      = [Fail info (Some 400%Z)])
  \/ outcomes (fst (authenticate self req options))
     = [Error (NotCallable (_verify self))].
Proof.
  destruct (nullish req) eqn:Hreq.
  { rewrite (authenticate_no_request lookup verifyJwt app self req options Hreq).
    discriminate. }
  destruct (all_present self req) eqn:Hp.
  2:{ rewrite (authenticate_incomplete lookup verifyJwt app self req options
                 Hreq Hp).
      intros _ _. left. eexists. reflexivity. }
  rewrite (authenticate_present self req options Hreq Hp).
  destruct (verifyJwt (jwt_arg self req)) as [r|e'] eqn:Hr; [|discriminate].
  destruct (nullish r); [discriminate|].
  destruct (nullish (prop r "payload")); [discriminate|].
  destruct (negb (claims_match (prop r "payload") self req)).
  { intros _ _. left. eexists. reflexivity. }
  destruct (negb (truthy (prop r "verified"))).
  { intros _ _. left. eexists. reflexivity. }
  cbn [fst]. rewrite delegate_trace. intros _.
  destruct (_verify self); try (intros _; right; reflexivity).
  discriminate.
Qed.

(** X13.  Of the options of a call, [authenticate] reads
    [badRequestMessage] and nothing else: two sets of options with the same
    [badRequestMessage] give the same run. *)
Theorem options_only_message (self : strategy) (req options options' : value) :
  prop options "badRequestMessage" = prop options' "badRequestMessage" ->
  authenticate self req options = authenticate self req options'.
Proof.
  intros H. unfold authenticate.
  rewrite !get_options, H. reflexivity.
Qed.

(** *** Extraction *)

(** X7.  The value of the body is kept only when it is truthy: an empty
    string, [0] or [false] found in the body gives way to the query like an
    absent value, and the value found in the query is then the result,
    truthy or not.  So the token handed to the collaborator is the one of
    the query whenever the body has no truthy one. *)
Theorem falsy_body_falls_back (self : strategy) (req options field : value) :
  nullish req = false ->
  truthy (lookup (prop req "body") field) = false ->
  extract req field = ret (lookup (prop req "query") field)
  /\ (field = _jwtField self ->
      all_present self req = true ->
      exists rest,
        fst (authenticate self req options)
        = VerifyJwt
            (VObj (Fresh 95) [("jwt", lookup (prop req "query") field)])
          :: rest).
Proof.
  intros Hreq Hb. split.
  - unfold extract.
    rewrite !get_object, !bind_ret by exact Hreq.
    unfold or_else. rewrite bind_ret, Hb. reflexivity.
  - intros -> Hp.
    rewrite (authenticate_present self req options Hreq Hp).
    replace (jwt_arg self req)
      with (VObj (Fresh 95)
              [("jwt", lookup (prop req "query") (_jwtField self))])
      by (unfold jwt_arg, jwt_of, credential, js_or; rewrite Hb; reflexivity).
    destruct (verifyJwt _) as [r|e]; [|eexists; reflexivity].
    destruct (nullish r); [eexists; reflexivity|].
    destruct (nullish (prop r "payload")); [eexists; reflexivity|].
    destruct (negb (claims_match _ self req)); [eexists; reflexivity|].
    destruct (negb (truthy (prop r "verified"))); eexists; reflexivity.
Qed.

End Coverage.

(** *** The constructor *)

(** X1.  With a verify callback but with [undefined] or [null] where the
    options go, the constructor does not fall back on the defaults: it
    throws on the read of [options.jwtField]. *)
Theorem constructor_needs_options (options verify : value) :
  nullish options = true ->
  truthy verify = true ->
  Strategy options verify = ([], Throw (NoProperties options "jwtField")).
Proof.
  intros Ho Hv. unfold Strategy.
  replace (String.eqb (typeof options) "function") with false
    by (destruct options; try discriminate Ho; reflexivity).
  rewrite Hv. cbn [negb]. rewrite (get_nullish options "jwtField" Ho).
  reflexivity.
Qed.

(** X2.  When the first argument is a function, the second is not looked
    at: options given after the callback are lost, and the instance has the
    default field names and no [passReqToCallback]. *)
Theorem constructor_discards_second (f : nat) (second : value) :
  Strategy (VFun f) second = Strategy (VFun f) VUndefined
  /\ forall t self,
       Strategy (VFun f) second = (t, Normal self) ->
       _verify self = VFun f
       /\ _jwtField self = VStr "jwt"
       /\ _baseUrlField self = VStr "baseUrl"
       /\ _pathField self = VStr "path"
       /\ _extraDataField self = VStr "extraData"
       /\ truthy (_passReqToCallback self) = false.
Proof.
  split; [reflexivity|].
  intros t self H. rewrite Strategy_function_first in H.
  injection H as _ <-. repeat split.
Qed.

(** X3.  An instance built from options holds, for each field name, the
    name of the options when that is truthy and the default otherwise (an
    empty name is not kept); it holds [passReqToCallback] as the options
    have it, and the verify callback as given. *)
Theorem constructor_configuration (options verify : value)
    (t : list event) (self : strategy) :
  typeof options <> "function" ->
  Strategy options verify = (t, Normal self) ->
  _jwtField self
  = (if truthy (prop options "jwtField")
     then prop options "jwtField" else VStr "jwt")
  /\ _baseUrlField self
     = (if truthy (prop options "baseUrlField")
        then prop options "baseUrlField" else VStr "baseUrl")
  /\ _pathField self
     = (if truthy (prop options "pathField")
        then prop options "pathField" else VStr "path")
  /\ _extraDataField self
     = (if truthy (prop options "extraDataField")
        then prop options "extraDataField" else VStr "extraData")
  /\ _passReqToCallback self = prop options "passReqToCallback"
  /\ _verify self = verify
  /\ name self = "litProtocol".
Proof.
  intros E HS.
  destruct (truthy verify) eqn:Hv.
  2:{ rewrite (Strategy_no_verify _ _ E Hv) in HS. discriminate HS. }
  destruct (nullish options) eqn:Ho.
  1:{ rewrite (Strategy_no_options _ _ Ho Hv) in HS. discriminate HS. }
  rewrite (Strategy_options _ _ E Ho Hv) in HS. injection HS as _ <-.
  repeat split.
Qed.

(** X16.  Every instance the constructor returns has four truthy field
    names, the name [litProtocol] and a truthy verify callback, and the
    constructor has called nothing. *)
Theorem constructed_invariant (options verify : value)
    (t : list event) (self : strategy) :
  Strategy options verify = (t, Normal self) ->
  truthy (_jwtField self) = true
  /\ truthy (_baseUrlField self) = true
  /\ truthy (_pathField self) = true
  /\ truthy (_extraDataField self) = true
  /\ truthy (_verify self) = true
  /\ name self = "litProtocol"
  /\ t = [].
Proof.
  intros HS.
  destruct (String.eqb_spec (typeof options) "function") as [E|E].
  - destruct (typeof_function _ E) as [f ->].
    rewrite Strategy_function_first in HS. injection HS as <- <-.
    repeat split.
  - destruct (truthy verify) eqn:Hv.
    2:{ rewrite (Strategy_no_verify _ _ E Hv) in HS. discriminate HS. }
    destruct (nullish options) eqn:Ho.
    1:{ rewrite (Strategy_no_options _ _ Ho Hv) in HS. discriminate HS. }
    rewrite (Strategy_options _ _ E Ho Hv) in HS. injection HS as <- <-.
    cbn [_jwtField _baseUrlField _pathField _extraDataField _verify name].
    unfold js_or.
    repeat split; try assumption;
      match goal with
      | |- truthy (if truthy ?x then _ else _) = true =>
          destruct (truthy x) eqn:T; [exact T | reflexivity]
      end.
Qed.

(** *** On concrete inputs *)

(** [null] for options, and a callback. *)
Lemma constructor_needs_options_witness :
  Strategy VNull (VFun 1) = ([], Throw (NoProperties VNull "jwtField")).
Proof. apply (constructor_needs_options VNull (VFun 1)); reflexivity. Defined.

(** The callback first and the options second. *)
Lemma constructor_discards_second_witness :
  _jwtField (default_strategy (VFun 1)) = VStr "jwt".
Proof.
  apply (proj2 (constructor_discards_second 1
                  (VObj (Addr 8) [("jwtField", VStr "token")]))
           [] (default_strategy (VFun 1))).
  reflexivity.
Defined.

(** Options that rename the token field and give an empty path field. *)
Lemma constructor_configuration_witness :
  Strategy (VObj (Addr 8) [("jwtField", VStr "token"); ("pathField", VStr "")])
           (VFun 1)
  = ([], Normal {| _jwtField := VStr "token";
                   _baseUrlField := VStr "baseUrl";
                   _pathField := VStr "path";
                   _extraDataField := VStr "extraData";
                   name := "litProtocol";
                   _verify := VFun 1;
                   _passReqToCallback := VUndefined |})
  /\ _pathField
       {| _jwtField := VStr "token";
          _baseUrlField := VStr "baseUrl";
          _pathField := VStr "path";
          _extraDataField := VStr "extraData";
          name := "litProtocol";
          _verify := VFun 1;
          _passReqToCallback := VUndefined |}
     = VStr "path".
Proof.
  split; [reflexivity|].
  apply (constructor_configuration
           (VObj (Addr 8) [("jwtField", VStr "token"); ("pathField", VStr "")])
           (VFun 1) []);
    [discriminate | reflexivity].
Defined.

Lemma constructed_invariant_witness :
  truthy (_pathField
            {| _jwtField := VStr "token";
               _baseUrlField := VStr "baseUrl";
               _pathField := VStr "path";
               _extraDataField := VStr "extraData";
               name := "litProtocol";
               _verify := VFun 1;
               _passReqToCallback := VUndefined |})
  = true.
Proof.
  apply (constructed_invariant
           (VObj (Addr 8) [("jwtField", VStr "token"); ("pathField", VStr "")])
           (VFun 1) []).
  reflexivity.
Defined.

(** A token the collaborator does not know. *)
Lemma collaborator_throw_escapes_witness :
  authenticate sample_lookup sample_verifyJwt sample_app
    (default_strategy (VFun 1)) (request (sample_body "zz") VUndefined)
    VUndefined
  = ([VerifyJwt (VObj (Fresh 95) [("jwt", VStr "zz")])],
     Throw (Val (VStr "malformed token"))).
Proof.
  apply (collaborator_throw_escapes sample_lookup sample_verifyJwt sample_app
           (default_strategy (VFun 1)) (request (sample_body "zz") VUndefined)
           VUndefined (Val (VStr "malformed token")));
    reflexivity.
Defined.

(** A collaborator that answers [null]. *)
Lemma malformed_result_throws_witness :
  authenticate sample_lookup (fun _ => Normal VNull) sample_app
    (default_strategy (VFun 1)) (request (sample_body "t1") VUndefined)
    VUndefined
  = ([VerifyJwt (VObj (Fresh 95) [("jwt", VStr "t1")])],
     Throw (NoProperties VNull "verified")).
Proof.
  apply (malformed_result_throws sample_lookup (fun _ => Normal VNull)
           sample_app (default_strategy (VFun 1))
           (request (sample_body "t1") VUndefined) VUndefined VNull);
    reflexivity.
Defined.

(** An empty token in the body, a token in the query. *)
Lemma falsy_body_falls_back_witness :
  extract sample_lookup
    (request (sample_body "") (sample_body "t1")) (VStr "jwt")
  = ret (VStr "t1").
Proof.
  apply (falsy_body_falls_back sample_lookup sample_verifyJwt sample_app
           (default_strategy (VFun 1))
           (request (sample_body "") (sample_body "t1")) VUndefined
           (VStr "jwt"));
    reflexivity.
Defined.

(** The success of the scenario of the specification. *)
Lemma success_requires_checks_witness :
  all_present sample_lookup (default_strategy (VFun 1))
    (request (sample_body "t1") VUndefined)
  = true.
Proof.
  apply (success_requires_checks sample_lookup sample_verifyJwt sample_app
           (default_strategy (VFun 1)) (request (sample_body "t1") VUndefined)
           VUndefined (sample_user (VStr "addr1")) VUndefined).
  right; right; left; reflexivity.
Defined.

(** A result without [verified]. *)
Lemma falsy_verified_fails_witness :
  authenticate sample_lookup
    (fun _ => Normal (VObj (Addr 3) [("payload", sample_payload "/r")]))
    sample_app (default_strategy (VFun 1))
    (request (sample_body "t1") VUndefined) VUndefined
  = ([VerifyJwt (VObj (Fresh 95) [("jwt", VStr "t1")]);
      Fail (info_at 115 (VStr unauthorized_message)) (Some 400%Z)],
     Normal VUndefined).
Proof.
  apply (falsy_verified_fails sample_lookup
           (fun _ => Normal (VObj (Addr 3) [("payload", sample_payload "/r")]))
           sample_app (default_strategy (VFun 1))
           (request (sample_body "t1") VUndefined) VUndefined
           (VObj (Addr 3) [("payload", sample_payload "/r")]));
    reflexivity.
Defined.

(** A verified payload without claims. *)
Lemma falsy_claim_mismatch_witness :
  authenticate sample_lookup
    (fun _ => Normal (sample_result true
                        (VObj (Addr 4) [("sub", VStr "addr1")])))
    sample_app (default_strategy (VFun 1))
    (request (sample_body "t1") VUndefined) VUndefined
  = ([VerifyJwt (VObj (Fresh 95) [("jwt", VStr "t1")]);
      Fail (info_at 104 (VStr mismatch_message)) (Some 400%Z)],
     Normal VUndefined).
Proof.
  apply (falsy_claim_mismatch sample_lookup
           (fun _ => Normal (sample_result true
                               (VObj (Addr 4) [("sub", VStr "addr1")])))
           sample_app (default_strategy (VFun 1))
           (request (sample_body "t1") VUndefined) VUndefined
           (sample_result true (VObj (Addr 4) [("sub", VStr "addr1")])));
    try reflexivity.
  left; reflexivity.
Defined.

(** A string where the verify callback goes. *)
Lemma non_callable_verify_witness :
  exists self,
    Strategy (VObj (Addr 8) []) (VStr "verify") = ([], Normal self)
    /\ authenticate sample_lookup sample_verifyJwt sample_app self
         (request (sample_body "t1") VUndefined) VUndefined
       = ([VerifyJwt (VObj (Fresh 95) [("jwt", VStr "t1")]);
           Error (NotCallable (VStr "verify"))],
          Normal VUndefined).
Proof.
  destruct (non_callable_verify sample_lookup sample_verifyJwt sample_app
              (VObj (Addr 8) []) (VStr "verify")
              (request (sample_body "t1") VUndefined) VUndefined)
    as [self [HS [Hverify [Hrun _]]]];
    [discriminate | reflexivity | reflexivity | intros f; discriminate |].
  exists self. split; [exact HS|].
  injection HS as <-.
  apply (Hrun (sample_result true (sample_payload "/r"))); reflexivity.
Defined.

(** A verify function that calls [callback] twice with a user, then
    throws: two successes and an error. *)
Lemma outcomes_follow_done_calls_witness :
  outcomes
    (fst (authenticate sample_lookup sample_verifyJwt
            (fun _ args =>
               {| dones := [[VNull; sample_user (last args VUndefined)];
                            [VNull; sample_user (last args VUndefined)]];
                  throws := Some (VStr "late") |})
            (default_strategy (VFun 1))
            (request (sample_body "t1") VUndefined) VUndefined))
  = [Success (sample_user (VStr "addr1")) VUndefined;
     Success (sample_user (VStr "addr1")) VUndefined;
     Error (Val (VStr "late"))].
Proof.
  apply (outcomes_follow_done_calls sample_lookup sample_verifyJwt
           (fun _ args =>
              {| dones := [[VNull; sample_user (last args VUndefined)];
                           [VNull; sample_user (last args VUndefined)]];
                 throws := Some (VStr "late") |})
           (default_strategy (VFun 1))
           (request (sample_body "t1") VUndefined) VUndefined
           (sample_result true (sample_payload "/r")) 1);
    reflexivity.
Defined.

(** Options of the host framework that the strategy does not know. *)
Lemma options_only_message_witness :
  authenticate sample_lookup sample_verifyJwt sample_app
    (default_strategy (VFun 1)) (request (sample_body "t2") VUndefined)
    (VObj (Addr 7) [("session", VBool false)])
  = authenticate sample_lookup sample_verifyJwt sample_app
      (default_strategy (VFun 1)) (request (sample_body "t2") VUndefined)
      VUndefined.
Proof.
  apply (options_only_message sample_lookup sample_verifyJwt sample_app
           (default_strategy (VFun 1)) (request (sample_body "t2") VUndefined)
           (VObj (Addr 7) [("session", VBool false)]) VUndefined).
  reflexivity.
Defined.

(** The unknown token again: nothing is reported. *)
Lemma throws_before_any_outcome_witness :
  outcomes
    (fst (authenticate sample_lookup sample_verifyJwt sample_app
            (default_strategy (VFun 1))
            (request (sample_body "zz") VUndefined) VUndefined))
  = [].
Proof.
  apply (throws_before_any_outcome sample_lookup sample_verifyJwt sample_app
           (default_strategy (VFun 1)) (request (sample_body "zz") VUndefined)
           VUndefined (Val (VStr "malformed token"))).
  reflexivity.
Defined.

(** The token for another path: one failure. *)
Lemma single_outcome_without_verify_witness :
  (exists info,
      outcomes
        (fst (authenticate sample_lookup sample_verifyJwt sample_app
                (default_strategy (VFun 1))
                (request (sample_body "t2") VUndefined) VUndefined))
      = [Fail info (Some 400%Z)])
  \/ outcomes
       (fst (authenticate sample_lookup sample_verifyJwt sample_app
               (default_strategy (VFun 1))
               (request (sample_body "t2") VUndefined) VUndefined))
     = [Error (NotCallable (VFun 1))].
Proof.
  apply (single_outcome_without_verify sample_lookup sample_verifyJwt
           sample_app (default_strategy (VFun 1))
           (request (sample_body "t2") VUndefined) VUndefined VUndefined);
    reflexivity.
Defined.

(** *** Failures with a status, and the constructor with [authenticate] *)

Lemma no_status_in_outcomes (ds : list (list value)) (info : value) (s : Z) :
  ~ In (Fail info (Some s)) (map outcome_of ds).
Proof.
  intros H. apply in_map_iff in H. destruct H as [d [Hd _]].
  unfold outcome_of in Hd.
  destruct (truthy (arg 0 d)); [discriminate Hd|].
  destruct (truthy (arg 1 d)); discriminate Hd.
Qed.

Lemma message_truthy (options : value) (default : string) :
  default <> "" -> truthy (message options default) = true.
Proof.
  intros Hd. unfold message, js_or.
  destruct (truthy (prop options "badRequestMessage")) eqn:T; [exact T|].
  cbn. destruct (String.eqb_spec default ""); [contradiction | reflexivity].
Qed.

Section Composition.

Variable lookup : value -> value -> value.
Variable verifyJwt : value -> completion value.
Variable app : nat -> list value -> behaviour.

Local Abbreviation authenticate := (authenticate lookup verifyJwt app).
Local Abbreviation all_present := (all_present lookup).
Local Abbreviation credential := (credential lookup).

(** X17.  A failure reported with a status is one of the three checks of
    [authenticate]: its status is 400 and its [message] is truthy, the
    [badRequestMessage] of the call or a default, never an empty one.  The
    failures the verify callback asks for carry no status. *)
Theorem failure_status_and_message (self : strategy) (req options : value)
    (info : value) (s : Z) :
  In (Fail info (Some s)) (fst (authenticate self req options)) ->
  s = 400%Z
  /\ truthy (prop info "message") = true
  /\ (prop info "message" = prop options "badRequestMessage"
      \/ prop info "message" = VStr "Missing credentials"
      \/ prop info "message"
         = VStr "Ooops. JWT payload does not match requested resource."
      \/ prop info "message"
         = VStr "Ooops. You don't have access to this resource.").
Proof.
  assert (Hmsg : forall line d, d <> "" ->
            (d = missing_message \/ d = mismatch_message
             \/ d = unauthorized_message) ->
            Fail (info_at line (message options d)) (Some 400%Z)
            = Fail info (Some s) ->
            s = 400%Z
            /\ truthy (prop info "message") = true
            /\ (prop info "message" = prop options "badRequestMessage"
                \/ prop info "message" = VStr missing_message
                \/ prop info "message" = VStr mismatch_message
                \/ prop info "message" = VStr unauthorized_message)).
  { intros line d Hd Hc H. injection H as <- <-.
    split; [reflexivity|]. cbn [info_at prop assoc String.eqb].
    change (assoc "message" [("message", message options d)])
      with (Some (message options d)).
    split; [apply message_truthy, Hd|].
    unfold message, js_or.
    destruct (truthy (prop options "badRequestMessage")); [left; reflexivity|].
    right. destruct Hc as [->|[->| ->]]; auto. }
  intros Hin.
  destruct (nullish req) eqn:Hreq.
  { rewrite (authenticate_no_request lookup verifyJwt app self req options Hreq)
      in Hin.
    destruct Hin. }
  destruct (all_present self req) eqn:Hp.
  2:{ rewrite (authenticate_incomplete lookup verifyJwt app self req options
                 Hreq Hp) in Hin.
      destruct Hin as [H|[]].
      apply (Hmsg 90 missing_message); [discriminate | auto | exact H]. }
  rewrite (authenticate_present lookup verifyJwt app self req options Hreq Hp)
    in Hin.
  destruct (verifyJwt _) as [r|e].
  2:{ destruct Hin as [H|[]]. discriminate H. }
  destruct (nullish r).
  { destruct Hin as [H|[]]. discriminate H. }
  destruct (nullish (prop r "payload")).
  { destruct Hin as [H|[]]. discriminate H. }
  destruct (negb (claims_match lookup (prop r "payload") self req)).
  { destruct Hin as [H|[H|[]]]; [discriminate H|].
    apply (Hmsg 104 mismatch_message); [discriminate | auto | exact H]. }
  destruct (negb (truthy (prop r "verified"))).
  { destruct Hin as [H|[H|[]]]; [discriminate H|].
    apply (Hmsg 115 unauthorized_message); [discriminate | auto | exact H]. }
  cbn [fst] in Hin. rewrite delegate_trace in Hin.
  destruct Hin as [H|Hin]; [discriminate H|].
  destruct (_verify self);
    try (destruct Hin as [H|[]]; discriminate H).
  destruct Hin as [H|Hin]; [discriminate H|].
  apply in_app_or in Hin. destruct Hin as [Hin|Hin].
  - exfalso. exact (no_status_in_outcomes _ _ _ Hin).
  - unfold thrown_events in Hin.
    destruct (throws _); [destruct Hin as [H|[]]; discriminate H | destruct Hin].
Qed.

(** X18.  The constructor and [authenticate] together: an instance built
    with options that name the token field reads the token under that name
    and no other, so a request that has no truthy value under it is refused
    for missing credentials, whatever it has under [jwt]. *)
Theorem renamed_field_is_read (options verify : value) (t : list event)
    (self : strategy) (req opts : value) :
  typeof options <> "function" ->
  Strategy options verify = (t, Normal self) ->
  truthy (prop options "jwtField") = true ->
  nullish req = false ->
  truthy (credential req (prop options "jwtField")) = false ->
  authenticate self req opts
  = ([Fail (info_at 90
              (js_or (prop opts "badRequestMessage")
                 (VStr "Missing credentials")))
           (Some 400%Z)],
     Normal VUndefined).
Proof.
  intros E HS Hj Hreq Hc.
  destruct (truthy verify) eqn:Hv.
  2:{ rewrite (Strategy_no_verify _ _ E Hv) in HS. discriminate HS. }
  destruct (nullish options) eqn:Ho.
  1:{ rewrite (Strategy_no_options _ _ Ho Hv) in HS. discriminate HS. }
  rewrite (Strategy_options _ _ E Ho Hv) in HS. injection HS as _ <-.
  apply authenticate_incomplete; [exact Hreq|].
  unfold all_present, jwt_of. cbn [_jwtField].
  unfold js_or at 1. rewrite Hj, Hc. reflexivity.
Qed.

End Composition.

(** The failure of the token for another path. *)
Lemma failure_status_and_message_witness :
  truthy (prop (info_at 104 (VStr mismatch_message)) "message") = true.
Proof.
  apply (failure_status_and_message sample_lookup sample_verifyJwt
           sample_app (default_strategy (VFun 1))
           (request (sample_body "t2") VUndefined) VUndefined
           (info_at 104 (VStr mismatch_message)) 400%Z).
  right; left; reflexivity.
Defined.

(** The token field renamed to [token], and a request with a [jwt]. *)
Lemma renamed_field_is_read_witness :
  authenticate sample_lookup sample_verifyJwt sample_app
    {| _jwtField := VStr "token";
       _baseUrlField := VStr "baseUrl";
       _pathField := VStr "path";
       _extraDataField := VStr "extraData";
       name := "litProtocol";
       _verify := VFun 1;
       _passReqToCallback := VUndefined |}
    (request (sample_body "t1") VUndefined) VUndefined
  = ([Fail (info_at 90 (VStr "Missing credentials")) (Some 400%Z)],
     Normal VUndefined).
Proof.
  apply (renamed_field_is_read sample_lookup sample_verifyJwt sample_app
           (VObj (Addr 8) [("jwtField", VStr "token")]) (VFun 1) []
           _ (request (sample_body "t1") VUndefined) VUndefined);
    try reflexivity.
  discriminate.
Defined.

(** ** Extraction in [authenticate] *)

Section Extraction.

Variable lookup : value -> value -> value.
Variable verifyJwt : value -> completion value.
Variable app : nat -> list value -> behaviour.

Local Abbreviation extract := (extract lookup).
Local Abbreviation authenticate := (authenticate lookup verifyJwt app).


End Extraction.

